(** * The HTTP task of the split-flap display (esp32/splitflap/http_task.cpp)

    A shallow embedding of [HTTPTask]: the weather summary ([handleData],
    [fetchData]), the quote summary ([addStockPriceToMessages]) and the body
    of the scheduling loop ([HTTPTask::run]), followed by the properties of
    the specification that concern them.

    Conventions.
    - [uint32_t] and [unsigned long] values are integers of [Z] in
      [0, 2^32); every operation of the source that can wrap is written
      with [wrap32].
    - [double] is the IEEE 754 binary64 type [float] of the kernel.
    - The collaborators (logger, split-flap driver, status display, WiFi,
      HTTP client) are not state of the task: a call on one of them is
      recorded as an [effect], in program order.
    - Undefined behaviour of the source (an access outside an array, a
      division by zero, the conversion to [int] of a double outside its
      range) is an explicit result, [Undefined]; the one loop that need not
      end, over the stations, takes fuel and gives [OutOfFuel] when it is
      used up.
    - A run of the loop of [run] is a list of iterations, each with the
      values it reads from its environment (clock, local time, WiFi, HTTP
      answers); the instants are real milliseconds since boot, of which
      [millis()] gives the low 32 bits.

    The definitions come first: the conventions of C, json11 values, the
    task and the weather summary, the environment of the loop, inputs for
    the examples, and, in the section [Task], the functions that depend on
    the secrets and on library functions. The properties follow. *)

From Stdlib Require Import ZArith List String Ascii Bool Lia Floats.
From Stdlib Require Import DecimalString Permutation.
From Stdlib Require DecimalFacts.
Import ListNotations.

#[local] Set Warnings "-register-all,-inexact-float".

Local Open Scope string_scope.
Local Open Scope list_scope.
Local Open Scope Z_scope.

(** ** Machine integers *)

Definition wrap32 (z : Z) : Z := z mod 2 ^ 32.

(** [a - b] on two [uint32_t] operands. *)
Definition usub32 (a b : Z) : Z := wrap32 (a - b).

(** [a + b] on two [uint32_t] operands. *)
Definition uadd32 (a b : Z) : Z := wrap32 (a + b).

(** [i++] on a [uint8_t]. *)
Definition uint8_incr (i : Z) : Z := (i + 1) mod 2 ^ 8.

Definition INT_MAX : Z := 2 ^ 31 - 1.
Definition INT_MIN : Z := - 2 ^ 31.

(** ** Results of a call *)

Inductive outcome (A : Type) : Type :=
| Returned (a : A)
| Undefined (what : string)
| OutOfFuel.

Arguments Returned {A} a.
Arguments Undefined {A} what.
Arguments OutOfFuel {A}.

Definition bind {A B : Type} (m : outcome A) (k : A -> outcome B) : outcome B :=
  match m with
  | Returned a => k a
  | Undefined what => Undefined what
  | OutOfFuel => OutOfFuel
  end.

Notation "x <- m ;; k" := (bind m (fun x => k))
  (at level 61, m at next level, right associativity).
Notation "' p <- m ;; k" := (bind m (fun x => let p := x in k))
  (at level 61, p pattern, m at next level, right associativity).

(** ** Text *)

Definition str_len (s : string) : Z := Z.of_nat (String.length s).

Definition spaces (n : nat) : string := string_of_list_ascii (repeat " "%char n).

(** The first [n] characters of [s]. *)
Definition str_take (n : nat) (s : string) : string := String.substring 0 n s.

(** What [snprintf(buf, size, ...)] leaves in [buf] when the formatted text is
    [s]: at most [size - 1] characters. *)
Definition snprintf (size : nat) (s : string) : string := str_take (size - 1) s.

(** [%d] and [%lu]. *)
Definition dec (z : Z) : string := NilZero.string_of_int (Z.to_int z).

(** [%H] and [%M] of [strftime]: two digits. *)
Definition dec2 (z : Z) : string :=
  if z <? 10 then ("0" ++ dec z)%string else dec z.

Definition is_empty_string (s : string) : bool :=
  match s with EmptyString => true | String _ _ => false end.

Definition lower_ascii (c : ascii) : ascii :=
  let n := nat_of_ascii c in
  if (Nat.leb 65 n && Nat.leb n 90)%bool then ascii_of_nat (n + 32) else c.

(** [String::toLowerCase]. *)
Fixpoint toLowerCase (s : string) : string :=
  match s with
  | EmptyString => EmptyString
  | String c rest => String (lower_ascii c) (toLowerCase rest)
  end.

Definition isspace (c : ascii) : bool :=
  let n := nat_of_ascii c in
  (Nat.eqb n 32 || (Nat.leb 9 n && Nat.leb n 13))%bool.

Fixpoint drop_space (l : list ascii) : list ascii :=
  match l with
  | c :: rest => if isspace c then drop_space rest else l
  | [] => []
  end.

(** [String::trim]. *)
Definition trim (s : string) : string :=
  string_of_list_ascii
    (rev (drop_space (rev (drop_space (list_ascii_of_string s))))).

(** The two bytes of the masculine ordinal sign in the log line of
    [handleData]. *)
Definition ordinal_sign : string :=
  String (ascii_of_nat 194) (String (ascii_of_nat 186) EmptyString).

(** ** json11 values, as far as the task inspects them *)

Inductive Json : Type :=
| JNull
| JNumber (d : float)
| JBool (b : bool)
| JString (s : string)
| JArray (items : list Json)
| JObject (members : list (string * Json)).

Definition is_array (j : Json) : bool :=
  match j with JArray _ => true | _ => false end.
Definition is_object (j : Json) : bool :=
  match j with JObject _ => true | _ => false end.
Definition is_number (j : Json) : bool :=
  match j with JNumber _ => true | _ => false end.
Definition is_string (j : Json) : bool :=
  match j with JString _ => true | _ => false end.

Definition array_items (j : Json) : list Json :=
  match j with JArray items => items | _ => [] end.
Definition number_value (j : Json) : float :=
  match j with JNumber d => d | _ => 0%float end.
Definition string_value (j : Json) : string :=
  match j with JString s => s | _ => EmptyString end.

Fixpoint member (key : string) (members : list (string * Json)) : Json :=
  match members with
  | [] => JNull
  | (k, v) :: rest => if String.eqb k key then v else member key rest
  end.

(** [json[key]]: the member of an object, the null value otherwise. *)
Definition at_key (j : Json) (key : string) : Json :=
  match j with JObject members => member key members | _ => JNull end.

(** ** Doubles *)

(** The exact value of a finite double, rounded toward zero. *)
Definition truncate (d : float) : Z :=
  match Prim2SF d with
  | S754_finite s m e =>
      let magnitude := if 0 <=? e then Z.pos m * 2 ^ e else Z.pos m / 2 ^ (- e) in
      if s then - magnitude else magnitude
  | _ => 0
  end.

(** [(int)d]: the value of [d] rounded toward zero, when that is an [int].
    The conversion of any other double (not-a-number, an infinity, or a
    value whose integer part is outside the range of [int]) is undefined. *)
Definition int_of_double (d : float) : outcome Z :=
  match Prim2SF d with
  | S754_zero _ | S754_finite _ _ _ =>
      let z := truncate d in
      if (INT_MIN <=? z) && (z <=? INT_MAX) then Returned z
      else Undefined "double outside the range of int"
  | _ => Undefined "double outside the range of int"
  end.

Fixpoint insert_sorted (x : float) (l : list float) : list float :=
  match l with
  | [] => [x]
  | y :: rest => if PrimFloat.ltb x y then x :: l else y :: insert_sorted x rest
  end.

(** [std::sort(v.begin(), v.end())] on doubles, ordered by [<]. *)
Definition std_sort (v : list float) : list float :=
  fold_right insert_sorted [] v.

(** No value of the vector is less than the one before it. *)
Fixpoint ordered (v : list float) : Prop :=
  match v with
  | [] => True
  | a :: rest =>
      match rest with
      | [] => True
      | b :: _ => PrimFloat.ltb b a = false
      end /\ ordered rest
  end.

(** [v[i]] on a [std::vector<double>]: no bounds check in the source. *)
Definition vector_at (v : list float) (i : Z) : outcome float :=
  if (0 <=? i) && (i <? Z.of_nat (List.length v)) then
    Returned (nth (Z.to_nat i) v 0%float)
  else Undefined "vector index out of range".

(** ** The task and its collaborators *)

(** Modelled from the spec: the header http_task.h, which declares the members
    of [HTTPTask], is not among the sources. The members are given the types
    their uses in http_task.cpp require: [messages_] a FIFO of strings
    ([push], [front], [pop], [size], [empty]), [m_lastSeenTime] a string
    ([c_str], assignment from a character array), and
    [last_message_change_time_] an unsigned 32-bit timestamp as returned by
    [millis()] (the specification: deltas are unsigned subtractions).
    [intraMinuteDuplicationProtection] ([uint32_t]) and [buf] are the locals
    of [run] that live across iterations of its loop. [buf] holds the
    characters last written to the array, from its first element: a text
    shorter than the array is followed by its terminator, which is not part
    of the string here; a text of [sizeof(buf)] characters fills the
    array. *)
Record HTTPTask : Type := {
  messages_ : list string;
  last_message_change_time_ : Z;
  m_lastSeenTime : string;
  intraMinuteDuplicationProtection : Z;
  buf : string
}.

Definition set_messages (q : list string) (st : HTTPTask) : HTTPTask :=
  {| messages_ := q;
     last_message_change_time_ := last_message_change_time_ st;
     m_lastSeenTime := m_lastSeenTime st;
     intraMinuteDuplicationProtection := intraMinuteDuplicationProtection st;
     buf := buf st |}.

(** [messages_.push(s)]. *)
Definition push (s : string) (st : HTTPTask) : HTTPTask :=
  set_messages (messages_ st ++ [s]) st.

(** [messages_.empty()]: tells whether the queue is empty, changes nothing. *)
Definition queue_empty (q : list string) : bool :=
  match q with [] => true | _ :: _ => false end.

Definition set_intraMinuteDuplicationProtection (v : Z) (st : HTTPTask) : HTTPTask :=
  {| messages_ := messages_ st;
     last_message_change_time_ := last_message_change_time_ st;
     m_lastSeenTime := m_lastSeenTime st;
     intraMinuteDuplicationProtection := v;
     buf := buf st |}.

(** A call on a collaborator. *)
Inductive effect : Type :=
| Log (line : string)
| ShowString (str : string) (length : Z) (force_full_rotation : bool)
| DisableAll
| ResetAll
| SetMessage (line : Z) (message : string)
| HttpBegin (url : string)
| HttpGET
| HttpEnd
| OTA_handle
| WiFi_reconnect
| Delay (ms : Z).

(** ** Weather summary: [HTTPTask::handleData] *)

(** The body of the loop over the stations, for one [item]. *)
Definition station_step (item : Json) (temps wind_speeds : list float)
  : list float * list float * list effect :=
  if negb (is_object item) then
    (temps, wind_speeds, [Log "Bad station item, ignoring"])
  else
    let observations := at_key item "OBSERVATIONS" in
    if negb (is_object observations) then
      (temps, wind_speeds, [Log "Bad station observations, ignoring"])
    else
      let air_temp_value := at_key observations "air_temp_value_1" in
      if negb (is_object air_temp_value) then
        (temps, wind_speeds, [Log "Bad air_temp_value_1, ignoring"])
      else
        let value := at_key air_temp_value "value" in
        if negb (is_number value) then
          (temps, wind_speeds, [Log "Bad air temp, ignoring"])
        else
          let temps := temps ++ [number_value value] in
          let wind_speed_value := at_key observations "wind_speed_value_1" in
          if negb (is_object wind_speed_value) then
            (temps, wind_speeds, [Log "Bad wind_speed_value_1, ignoring"])
          else
            let value := at_key wind_speed_value "value" in
            if negb (is_number value) then
              (temps, wind_speeds, [Log "Bad wind speed, ignoring"])
            else
              (temps, wind_speeds ++ [number_value value], []).

(** [for (uint8_t i = 0; i < station_array.size(); i++)], from the current
    value of [i]; one unit of [fuel] per evaluation of the loop condition. *)
Fixpoint station_loop (fuel : nat) (station_array : list Json) (i : Z)
    (temps wind_speeds : list float) (logged : list effect)
  : outcome (list float * list float * list effect) :=
  match fuel with
  | O => OutOfFuel
  | S fuel' =>
      if i <? Z.of_nat (List.length station_array) then
        let '(temps', wind_speeds', fx) :=
          station_step (nth (Z.to_nat i) station_array JNull) temps wind_speeds in
        station_loop fuel' station_array (uint8_incr i) temps' wind_speeds'
          (logged ++ fx)
      else Returned (temps, wind_speeds, logged)
  end.

(** The two medians, read from the sorted vectors at indices computed from
    [entries] alone. *)
Definition medians (entries : Z) (temps wind_speeds : list float)
  : outcome (float * float) :=
  if entries mod 2 =? 0 then
    t1 <- vector_at temps (entries / 2 - 1) ;;
    t2 <- vector_at temps (entries / 2) ;;
    w1 <- vector_at wind_speeds (entries / 2 - 1) ;;
    w2 <- vector_at wind_speeds (entries / 2) ;;
    Returned (((t1 + t2) / 2)%float, ((w1 + w2) / 2)%float)
  else
    t <- vector_at temps (entries / 2) ;;
    w <- vector_at wind_speeds (entries / 2) ;;
    Returned (t, w).

Definition KNOTS_TO_MPH : float := 1.151%float.

(** [fetch_time] is the local time of the call as [strftime] renders
    [%Y-%m-%d %H:%M:%S]. *)
Definition handleData (fuel : nat) (json : Json) (fetch_time : string)
    (st : HTTPTask) : outcome (bool * HTTPTask * list effect) :=
  let station := at_key json "STATION" in
  if negb (is_array station) then
    Returned (false, st, [Log "Parse error: STATION"])
  else
    let station_array := array_items station in
    '(temps, wind_speeds, logged) <- station_loop fuel station_array 0 [] [] [] ;;
    let entries := Z.of_nat (List.length temps) in
    if entries =? 0 then
      Returned (false, st, logged ++ [Log "No data found"])
    else
      let temps := std_sort temps in
      let wind_speeds := std_sort wind_speeds in
      '(median_temp, median_wind_speed) <- medians entries temps wind_speeds ;;
      temp_logged <- int_of_double median_temp ;;
      knots_logged <- int_of_double median_wind_speed ;;
      let line :=
        snprintf 200
          ("Medians from " ++ dec entries ++ " stations: temp="
           ++ dec temp_logged ++ ordinal_sign ++ "F, wind speed="
           ++ dec knots_logged ++ " knots")%string in
      let unused := queue_empty (messages_ st) in
      temp_shown <- int_of_double median_temp ;;
      let st := push (snprintf 200 (dec temp_shown ++ " f")%string) st in
      mph_shown <- int_of_double (median_wind_speed * KNOTS_TO_MPH)%float ;;
      let st := push (snprintf 200 (dec mph_shown ++ "mph")%string) st in
      Returned (true, st, logged ++ [Log line; SetMessage 0 ("Data: " ++ fetch_time)%string]).

(** The stations in order, as the loop treats them when it runs to its end. *)
Fixpoint collect (items : list Json) (temps wind_speeds : list float)
    (logged : list effect) : list float * list float * list effect :=
  match items with
  | [] => (temps, wind_speeds, logged)
  | item :: rest =>
      let '(temps', wind_speeds', fx) := station_step item temps wind_speeds in
      collect rest temps' wind_speeds' (logged ++ fx)
  end.

(** The median in the words of the specification: the central order
    statistic of a set of odd size, the mean of the two central order
    statistics of a set of even size. The order statistics are the values in
    the order [std_sort] puts them. *)
Definition spec_median (values : list float) : float :=
  let n := List.length values in
  let ordered := std_sort values in
  if Nat.even n then
    ((nth (n / 2 - 1)%nat ordered 0 + nth (n / 2)%nat ordered 0) / 2)%float
  else nth (n / 2)%nat ordered 0%float.

(** A station entry carries a number in the given field of its
    observations. *)
Definition has_number (field : string) (item : Json) : bool :=
  is_number (at_key (at_key (at_key item "OBSERVATIONS") field) "value").

(** ** What the loop reads from its environment *)

Inductive wl_status_t : Type :=
| WL_IDLE_STATUS
| WL_NO_SSID_AVAIL
| WL_CONNECTED
| WL_CONNECT_FAILED
| WL_CONNECTION_LOST
| WL_DISCONNECTED
| WL_OTHER.

Definition is_connected (s : wl_status_t) : bool :=
  match s with WL_CONNECTED => true | _ => false end.

(** The answer to one HTTP request: the code returned by [http.GET()], the
    text returned by [http.getString()], the text [http.errorToString] gives
    for the code, and the time the request took ([millis() - start]). *)
Record http_response : Type := {
  http_code : Z;
  payload : string;
  error_text : string;
  request_millis : Z
}.

(** One iteration of the loop of [run]. The instants are milliseconds since
    boot as they really elapse (they do not wrap); [millis()] returns them
    modulo 2^32. [t_now] is the instant of the [millis()] call that opens the
    iteration, [t_show] the instant at which the iteration calls [showString]
    if it does, [t_after] the instant of the [millis()] call that follows the
    display of a queued message. [tm_hour] and [tm_min] are the fields of
    [localtime(&tNow)]. *)
Record env : Type := {
  t_now : Z;
  tm_hour : Z;
  tm_min : Z;
  wifi_before_reconnect : wl_status_t;
  wifi_after_reconnect : wl_status_t;
  quote_AMZN : http_response;
  quote_VOO : http_response;
  t_show : Z;
  t_after : Z;
  wifi_status : wl_status_t;
  local_ip : string
}.

Definition millis (t : Z) : Z := wrap32 t.

(** The objects whose addresses the loop compares: the local array [curTime]
    and the character buffer owned by the member [m_lastSeenTime]. *)
Inductive object : Type :=
| array_curTime
| buffer_of_m_lastSeenTime.

Definition same_object (p q : object) : bool :=
  match p, q with
  | array_curTime, array_curTime => true
  | buffer_of_m_lastSeenTime, buffer_of_m_lastSeenTime => true
  | _, _ => false
  end.

(** [p != q] on two [char] pointers, each to the first character of an
    object: the addresses are compared, not the characters. *)
Definition pointer_neq (p q : object) : bool := negb (same_object p q).

(** Modelled from the spec: the configuration header defining [NUM_MODULES]
    is not among the sources; the specification gives N, typically 5, which
    is the width of every string the task builds. *)
Definition NUM_MODULES : Z := 5.

Definition REQUEST_INTERVAL_MILLIS : Z := 10 * 60 * 1000.
Definition MESSAGE_CYCLE_INTERVAL_MILLIS : Z := 5 * 1000.

(** [sizeof(buf)] in [run]: [max(NUM_MODULES + 1, 200)]. *)
Definition sizeof_buf : Z := Z.max (NUM_MODULES + 1) 200.

(** [strlcpy(buf, message, sizeof(buf))] then
    [memset(buf + len, ' ', sizeof(buf) - len)], [len] being the length of
    [message]: the contents of [buf] afterwards. The count of [memset] is
    unsigned: for a message longer than [buf] it wraps and the call writes
    outside the array. *)
Definition pad_for_display (message : string) : outcome string :=
  let len := str_len message in
  if len <? sizeof_buf then
    Returned (message ++ spaces (Z.to_nat (sizeof_buf - len)))%string
  else if len =? sizeof_buf then
    Returned (str_take (Z.to_nat (sizeof_buf - 1)) message
              ++ String (ascii_of_nat 0) EmptyString)%string
  else Undefined "memset past the end of buf".

(** The characters of a text before its first null character, if it has
    one. *)
Fixpoint before_nul (s : string) : option string :=
  match s with
  | EmptyString => None
  | String c rest =>
      if Ascii.eqb c "000"%char then Some EmptyString
      else option_map (String c) (before_nul rest)
  end.

(** What a call that takes [buf] as a C string reads, [contents] being the
    characters of the array: those before the terminator. When the array is
    filled to its last element with other characters, the call reads past
    its end. *)
Definition c_string_in_buf (contents : string) : outcome string :=
  match before_nul contents with
  | Some text => Returned text
  | None =>
      if str_len contents <? sizeof_buf then Returned contents
      else Undefined "read past the end of buf"
  end.

(** [strftime(curTime, sizeof(curTime), "t%H%M", localtime(&tNow))]; the
    array has [NUM_MODULES + 3] characters, enough for the six the text
    needs. *)
Definition strftime_tHHMM (e : env) : string :=
  ("t" ++ dec2 (tm_hour e) ++ dec2 (tm_min e))%string.

(** [hour >= 21 || hour <= 8]. *)
Definition night_hours (hour : Z) : bool := (21 <=? hour) || (hour <=? 8).

Definition wifi_status_text (ssid : string) (e : env) : string :=
  match wifi_status e with
  | WL_IDLE_STATUS => "Idle"
  | WL_NO_SSID_AVAIL => "No SSID"
  | WL_CONNECTED => (ssid ++ " " ++ local_ip e)%string
  | WL_CONNECT_FAILED => "Connection failed"
  | WL_CONNECTION_LOST => "Connection lost"
  | WL_DISCONNECTED => "Disconnected"
  | WL_OTHER => "Unknown"
  end.

(** ** Inputs for the examples

    Stand-ins for the functions of the collaborators, and small states and
    environments. None of the examples depends on what the stand-ins return,
    but for the parser that rejects its text. *)

Definition sample_ssid : string := "home".
Definition sample_token : string := "demo".

Definition rejecting_parse (text : string) : Json * string :=
  (JNull, "unexpected end of input").

Definition sample_toFloat (text : string) : float := 0%float.

Definition sample_dtostrf (value : float) (width precision : Z) : string :=
  " 0.00".

Definition sample_response : http_response :=
  {| http_code := 200;
     payload := EmptyString;
     error_text := EmptyString;
     request_millis := 350 |}.

(** An iteration that starts [t] milliseconds after boot at the local time
    [hour]:[min], with WiFi connected, its calls taking no time. *)
Definition at_time (t hour min : Z) : env :=
  {| t_now := t;
     tm_hour := hour;
     tm_min := min;
     wifi_before_reconnect := WL_CONNECTED;
     wifi_after_reconnect := WL_CONNECTED;
     quote_AMZN := sample_response;
     quote_VOO := sample_response;
     t_show := t;
     t_after := t;
     wifi_status := WL_CONNECTED;
     local_ip := "192.168.0.2" |}.

(** The task with [queue] pending, its last message change at the wrapped
    instant [last], and [seen] the clock text it remembers. *)
Definition task_with (queue : list string) (last : Z) (seen : string) : HTTPTask :=
  {| messages_ := queue;
     last_message_change_time_ := last;
     m_lastSeenTime := seen;
     intraMinuteDuplicationProtection := 0;
     buf := EmptyString |}.

(** A station with a temperature and, if [wind] is given, a wind speed. *)
Definition station (temp : float) (wind : option float) : Json :=
  JObject
    [("STID", JString "F4637");
     ("OBSERVATIONS",
      JObject
        (match wind with
         | Some w => [("wind_speed_value_1", JObject [("value", JNumber w)])]
         | None => []
         end
         ++ [("air_temp_value_1", JObject [("value", JNumber temp)])]))].

Definition stations (items : list Json) : Json :=
  JObject [("STATION", JArray items)].

(** The two stations of the example in http_task.cpp, and a third that
    reports a temperature only. *)
Definition stations_one_without_wind : list Json :=
  [station 69 (Some 0.87%float); station 68 (Some 1.74%float); station 70 None].

(** Stand-ins for a quote that is answered as expected: the parsed body,
    the number read from its price and the text that number is formatted
    to. *)
Definition quoting_parse (text : string) : Json * string :=
  (JObject
     [("Global Quote",
       JObject [("01. symbol", JString "AMZN"); ("05. price", JString "185.9200")])],
   EmptyString).

Definition quoting_toFloat (text : string) : float := 185.92%float.

Definition quoting_dtostrf (value : float) (width precision : Z) : string :=
  "185.9".

(** The strings a run shows, in order. *)
Definition shown_strings (trace : list (env * HTTPTask * list effect))
  : list string :=
  flat_map
    (fun it : env * HTTPTask * list effect =>
       flat_map
         (fun fx => match fx with ShowString str _ _ => [str] | _ => [] end)
         (snd it))
    trace.

(** The strings a run shows, if it runs to its end. *)
Definition shown_by
    (r : outcome (list (env * HTTPTask * list effect) * HTTPTask))
  : option (list string) :=
  match r with
  | Returned (trace, _) => Some (shown_strings trace)
  | _ => None
  end.

(** ** Bring-up: what [connectWifi] reads and calls *)

(** What [connectWifi] is given and the answers it gets. [WIFI_PASSWORD] is
    the password of secrets.h. [status_polls] are the successive results of
    [WiFi.status()] in its first loop and [time_polls] those of [time(&now)]
    in its second; a loop that has used up its answers is still waiting.
    [strftime_local] is [strftime] with [%Y-%m-%d %H:%M:%S] on [localtime]
    of a time. [t_connected] is the instant of the [millis()] call that ends
    the function. *)
Record boot_env : Type := {
  WIFI_PASSWORD : string;
  status_polls : list wl_status_t;
  time_polls : list Z;
  strftime_local : Z -> string;
  boot_ip : string;
  boot_quote : http_response;
  t_connected : Z
}.

(** A call made during bring-up: one of those the loop makes as well, or a
    call on WiFi, SNTP, the C library or the over-the-air updater. *)
Inductive setup_call : Type :=
| Call (fx : effect)
| WiFi_begin (ssid password : string)
| sntp_setoperatingmode_POLL
| sntp_setservername (idx : Z) (server : string)
| sntp_init
| setenv_TZ (value : string) (overwrite : Z)
| tzset
| OTA_callbacks
| OTA_begin.

Definition TIMEZONE : string := "PST8PDT,M3.2.0,M11.1.0".

(** The time below which the clock is not taken as synchronised. *)
Definition TIME_FLOOR : Z := 1625099485.

(** [while (WiFi.status() != WL_CONNECTED) { delay(1000); }]. *)
Fixpoint await_wifi (polls : list wl_status_t) : outcome (list effect) :=
  match polls with
  | [] => OutOfFuel
  | status :: later =>
      if is_connected status then Returned []
      else fx <- await_wifi later ;; Returned (Delay 1000 :: fx)
  end.

(** [while (time(&now), now < 1625099485) { delay(1000); }]: the value of
    [now] that ends the loop, and the delays before it. *)
Fixpoint await_time (polls : list Z) : outcome (Z * list effect) :=
  match polls with
  | [] => OutOfFuel
  | now :: later =>
      if now <? TIME_FLOOR then
        '(synced, fx) <- await_time later ;; Returned (synced, Delay 1000 :: fx)
      else Returned (now, [])
  end.

(** The strings shown by a list of bring-up calls, in order. *)
Definition setup_shown (calls : list setup_call) : list string :=
  flat_map
    (fun c => match c with Call (ShowString str _ _) => [str] | _ => [] end)
    calls.

(** The delays among a list of bring-up calls, in order. *)
Definition setup_delays (calls : list setup_call) : list Z :=
  flat_map (fun c => match c with Call (Delay ms) => [ms] | _ => [] end) calls.

(** The callback given to [ArduinoOTA.onProgress]: the number it prints,
    [progress / (total / 100)] on [unsigned int]. *)
Definition progress_percent (progress total : Z) : outcome Z :=
  if total / 100 =? 0 then Undefined "division by zero"
  else Returned (progress / (total / 100)).

(** The text [Serial.printf("Progress: %u%%\r", ...)] writes. *)
Definition onProgress (progress total : Z) : outcome string :=
  percent <- progress_percent progress total ;;
  Returned ("Progress: " ++ dec percent ++ "%"
            ++ String (ascii_of_nat 13) EmptyString)%string.

(** ** Further observations *)

Definition temperature_of (item : Json) : float :=
  number_value
    (at_key (at_key (at_key item "OBSERVATIONS") "air_temp_value_1") "value").

Definition wind_speed_of (item : Json) : float :=
  number_value
    (at_key (at_key (at_key item "OBSERVATIONS") "wind_speed_value_1") "value").

Definition has_both (item : Json) : bool :=
  has_number "air_temp_value_1" item && has_number "wind_speed_value_1" item.

(** The weather summary in the words of the specification: the pairs are
    collected from the entries that have both numbers; the median is taken
    of the temperatures and of the wind speeds of the pairs, each on its
    own; the two numbers are rounded toward zero. *)
Definition spec_weather_summary (items : list Json) : list string :=
  let pairs := filter has_both items in
  let T := map temperature_of pairs in
  let W := map wind_speed_of pairs in
  [(dec (truncate (spec_median T)) ++ " f")%string;
   (dec (truncate (spec_median W * KNOTS_TO_MPH)%float) ++ "mph")%string].

(** The local time of the iteration reads 21:00. *)
Definition night_edge (e : env) : bool := (tm_hour e =? 21) && (tm_min e =? 0).

(** A line for the logger or for the status display. *)
Definition is_report (fx : effect) : bool :=
  match fx with Log _ | SetMessage _ _ => true | _ => false end.

Definition is_HttpEnd (fx : effect) : bool :=
  match fx with HttpEnd => true | _ => false end.

Definition is_Delay (fx : effect) : bool :=
  match fx with Delay _ => true | _ => false end.

Definition is_OTA_handle (fx : effect) : bool :=
  match fx with OTA_handle => true | _ => false end.

Definition shows (fx : effect) : bool :=
  match fx with ShowString _ _ _ => true | _ => false end.

(** Neither a command to the flaps, nor a wait, nor the updater's hook. *)
Definition background (fx : effect) : bool :=
  negb (shows fx || is_Delay fx || is_OTA_handle fx).

(** At most five characters: the width of the display. *)
Definition fits_display (s : string) : Prop := str_len s <= NUM_MODULES.

Definition set_last_message_change_time_ (v : Z) (st : HTTPTask) : HTTPTask :=
  {| messages_ := messages_ st;
     last_message_change_time_ := v;
     m_lastSeenTime := m_lastSeenTime st;
     intraMinuteDuplicationProtection := intraMinuteDuplicationProtection st;
     buf := buf st |}.

(** A bring-up in which WiFi is connected at the third answer and the time
    is synchronised at the second, ended four seconds after boot. *)
Definition sample_boot : boot_env :=
  {| WIFI_PASSWORD := "secret";
     status_polls := [WL_DISCONNECTED; WL_IDLE_STATUS; WL_CONNECTED];
     time_polls := [3; 1700000000];
     strftime_local := fun _ => "2023-11-14 14:13:20";
     boot_ip := "192.168.0.2";
     boot_quote := sample_response;
     t_connected := 4000 |}.

Ltac returned H := inversion H; subst; clear H; cbn.

Section Task.

(** secrets.h. *)
Variable WIFI_SSID : string.
Variable ALPHAVANTAGE_TOKEN : string.

(** [Json::parse(text, err)] of json11: the value and the error text, empty
    on success. *)
Variable Json_parse : string -> Json * string.

(** [String::toFloat], widened to [double], and the text [dtostrf(value,
    width, precision, out)] writes. *)
Variable toFloat : string -> float.
Variable dtostrf : float -> Z -> Z -> string.

(** ** [HTTPTask::fetchData] *)

Definition SYNOPTICDATA_URL : string :=
  "https://api.synopticdata.com/v2/stations/latest?&token=e763d68537d9498a90fa808eb9d415d9&within=30&units=english&vars=air_temp,wind_speed&varsoperator=and&radius=45.5061697,-122.6235114,4&limit=20&fields=stid".

Definition fetchData (fuel : nat) (r : http_response) (fetch_time : string)
    (st : HTTPTask) : outcome (bool * HTTPTask * list effect) :=
  let sent :=
    [HttpBegin SYNOPTICDATA_URL;
     Log "Sending request";
     HttpGET;
     Log (snprintf 200
            ("Finished request in " ++ dec (request_millis r) ++ " millis.")%string)] in
  if 0 <? http_code r then
    let data := payload r in
    let received :=
      [HttpEnd;
       Log (snprintf 200
              ("Response code: " ++ dec (http_code r)
               ++ " Data length: " ++ dec (str_len data))%string)] in
    let '(json, err) := Json_parse data in
    if is_empty_string err then
      '(ok, st', fx) <- handleData fuel json fetch_time st ;;
      Returned (ok, st', sent ++ received ++ fx)
    else
      Returned (false, st,
                sent ++ received
                ++ [Log (snprintf 200 ("Error parsing response! " ++ err)%string)])
  else
    Returned (false, st,
              sent
              ++ [Log (snprintf 200
                         ("Error on HTTP request (" ++ dec (http_code r) ++ "): "
                          ++ error_text r)%string);
                  HttpEnd]).

(** ** Quote summary: [HTTPTask::addStockPriceToMessages] *)

(** The contents of [strPrice] once the price is formatted. The array has
    six characters: a text of more than five does not fit. *)
Definition format_price (priceNum : float) : outcome string :=
  let written (text : string) : outcome string :=
    if str_len text <=? 5 then Returned text
    else Undefined "dtostrf past the end of strPrice" in
  if (priceNum <? 100)%float then written (dtostrf priceNum 5 2)
  else if (priceNum <? 1000)%float then written (dtostrf priceNum 5 1)
  else if (priceNum <? 100000)%float then written (dtostrf priceNum 5 0)
  else Returned " big ".

(** A text that [addStockPriceToMessages] can push as a price: the initial
    contents of [strPrice], or what [dtostrf] wrote over them for a width
    of 5. *)
Definition is_price (text : string) : Prop :=
  text = " big "
  \/ exists (priceNum : float) (precision : Z),
       0 <= precision <= 2 /\ text = dtostrf priceNum 5 precision.

Definition addStockPriceToMessages (symbol : string) (r : http_response)
    (st : HTTPTask) : outcome (bool * HTTPTask * list effect) :=
  let begin :=
    HttpBegin ("https://www.alphavantage.co/query?function=GLOBAL_QUOTE&symbol="
               ++ symbol ++ "&apikey=" ++ ALPHAVANTAGE_TOKEN)%string in
  let symbol := toLowerCase symbol in
  let st := push symbol st in
  if 0 <? http_code r then
    let '(json, err) := Json_parse (payload r) in
    if negb (is_empty_string err) then
      Returned (false, st,
                [begin; HttpGET;
                 Log (snprintf 200 ("Error parsing response! " ++ err)%string)])
    else
      let quote := at_key json "Global Quote" in
      if negb (is_object quote) then
        Returned (false, st, [begin; HttpGET; Log "Parse error: [Global Quote]"])
      else
        let queryPrice := at_key quote "05. price" in
        if negb (is_string queryPrice) then
          Returned (false, st, [begin; HttpGET; Log "Parse error: [05. price]"])
        else
          let price := trim (string_value queryPrice) in
          let priceNum := toFloat price in
          strPrice <- format_price priceNum ;;
          Returned (true, push strPrice st, [begin; HttpGET; HttpEnd])
  else
    Returned (true, st, [begin; HttpGET; Log "Error getting stock price"; HttpEnd]).

(** ** The loop of [HTTPTask::run] *)

Definition push_all (l : list string) (st : HTTPTask) : HTTPTask :=
  fold_left (fun st s => push s st) l st.

(** The block guarded by [now - intraMinuteDuplicationProtection > 60000].
    [now] is the [long] that holds [millis()]; a [long] has 32 bits on the
    ESP32 and each use converts it back to an unsigned 32-bit operand, so it
    is kept as that unsigned value. *)
Definition scheduled_events (e : env) (now : Z) (st : HTTPTask)
  : outcome (HTTPTask * list effect) :=
  let hour := tm_hour e in
  let min := tm_min e in
  if 60000 <? usub32 now (intraMinuteDuplicationProtection st) then
    if (hour =? 9) && (min =? 0) then
      Returned (set_intraMinuteDuplicationProtection now
                  (push_all ["wakey"; "wakey"; "eggsn"; "bakey"] st),
                [ResetAll])
    else if (hour =? 11) && (min =? 35) then
      let reconnect :=
        if is_connected (wifi_before_reconnect e) then [] else [WiFi_reconnect] in
      if is_connected (wifi_after_reconnect e) then
        let st := push_all ["symbl"; "price"] st in
        '(_, st, fx1) <- addStockPriceToMessages "AMZN" (quote_AMZN e) st ;;
        '(_, st, fx2) <- addStockPriceToMessages "VOO" (quote_VOO e) st ;;
        Returned (set_intraMinuteDuplicationProtection now st,
                  reconnect ++ fx1 ++ fx2)
      else Returned (st, reconnect)
    else if (hour =? 12) && (min =? 0) then
      Returned (set_intraMinuteDuplicationProtection now
                  (push_all ["it's"; "lunch"; "time"] st), [])
    else if (hour =? 13) && (min =? 0) then
      Returned (set_intraMinuteDuplicationProtection now
                  (push_all ["back"; "to"; "work"] st), [])
    else if (hour =? 13) && (min =? 55) then
      Returned (set_intraMinuteDuplicationProtection now
                  (push_all ["test"; "1"; "2"] st), [])
    else if (hour =? 17) && (min =? 0) then
      Returned (set_intraMinuteDuplicationProtection now
                  (push_all ["nice"; "work"] st), [])
    else Returned (st, [])
  else Returned (st, []).

(** The two branches that drive the flaps: the next queued message, or the
    clock. The clock branch starts with [logger_.log(buf)], which reads
    whatever the array was left with. *)
Definition display_cycle (e : env) (now : Z) (st : HTTPTask)
  : outcome (HTTPTask * list effect) :=
  if negb (Z.of_nat (List.length (messages_ st)) =? 0)
     && (MESSAGE_CYCLE_INTERVAL_MILLIS <? usub32 now (last_message_change_time_ st))
  then
    match messages_ st with
    | [] => Undefined "front of an empty queue"
    | message :: rest =>
        let line :=
          snprintf (Z.to_nat sizeof_buf)
            ("Cycling to next message: " ++ message)%string in
        padded <- pad_for_display message ;;
        Returned ({| messages_ := rest;
                     last_message_change_time_ := millis (t_after e);
                     m_lastSeenTime := m_lastSeenTime st;
                     intraMinuteDuplicationProtection :=
                       intraMinuteDuplicationProtection st;
                     buf := padded |},
                  [Log line; ShowString padded NUM_MODULES false])
    end
  else if uadd32 (last_message_change_time_ st) MESSAGE_CYCLE_INTERVAL_MILLIS <? now
  then
    let curTime := strftime_tHHMM e in
    stale <- c_string_in_buf (buf st) ;;
    if night_hours (tm_hour e) then
      Returned (st, [Log stale; ShowString "night" NUM_MODULES false])
    else if pointer_neq array_curTime buffer_of_m_lastSeenTime then
      let line :=
        snprintf (Z.to_nat sizeof_buf)
          ("Cycling to next message: " ++ curTime)%string in
      Returned ({| messages_ := messages_ st;
                   last_message_change_time_ := last_message_change_time_ st;
                   m_lastSeenTime := curTime;
                   intraMinuteDuplicationProtection :=
                     intraMinuteDuplicationProtection st;
                   buf := line |},
                [Log stale; Log line; ShowString curTime NUM_MODULES false])
    else Returned (st, [Log stale])
  else Returned (st, []).

(** One iteration of [while(1)]. *)
Definition tick (e : env) (st : HTTPTask) : outcome (HTTPTask * list effect) :=
  let now := millis (t_now e) in
  if (tm_hour e =? 21) && (tm_min e =? 0) then
    Returned (st, [OTA_handle; ShowString "night" NUM_MODULES false; DisableAll;
                   Delay 60000])
  else if night_hours (tm_hour e) then
    Returned (st, [OTA_handle; Delay 10000])
  else
    '(st, fx1) <- scheduled_events e now st ;;
    '(st, fx2) <- display_cycle e now st ;;
    Returned (st,
              [OTA_handle] ++ fx1 ++ fx2
              ++ [SetMessage 1 ("Wifi: " ++ wifi_status_text WIFI_SSID e)%string;
                  Delay 1000]).

(** The iterations of the loop for the successive environments [envs]: for
    each one the environment, the state it started from and the calls it
    made; then the state reached. *)
Fixpoint run_loop (envs : list env) (st : HTTPTask)
  : outcome (list (env * HTTPTask * list effect) * HTTPTask) :=
  match envs with
  | [] => Returned ([], st)
  | e :: rest =>
      '(st', fx) <- tick e st ;;
      '(trace, final) <- run_loop rest st' ;;
      Returned ((e, st, fx) :: trace, final)
  end.

(** ** Observations on a run *)

Definition iteration : Type := env * HTTPTask * list effect.

Definition is_showString (fx : effect) : bool :=
  match fx with ShowString _ _ _ => true | _ => false end.

(** The instants of the [showString] calls of a run, in order. *)
Definition showString_times (trace : list iteration) : list Z :=
  flat_map
    (fun it : iteration =>
       let '(e, _, fx) := it in map (fun _ => t_show e) (filter is_showString fx))
    trace.

(** Each instant of [times] is at least [gap] after the one before it. *)
Fixpoint consecutive_at_least (gap : Z) (times : list Z) : Prop :=
  match times with
  | [] => True
  | t1 :: rest =>
      match rest with
      | [] => True
      | t2 :: _ => gap <= t2 - t1
      end /\ consecutive_at_least gap rest
  end.

(** The instants an iteration reads are in order, none before [since], and
    the iterations follow one another. *)
Fixpoint chronological (since : Z) (envs : list env) : Prop :=
  match envs with
  | [] => True
  | e :: rest =>
      since <= t_now e /\ t_now e <= t_show e /\ t_show e <= t_after e
      /\ chronological (t_after e) rest
  end.

(** The iteration passes the gate of the night hours. *)
Definition awake (e : env) : bool := negb (night_hours (tm_hour e)).

(** The iteration takes the first branch of the display step: it shows the
    message at the front of the queue. *)
Definition cycles (e : env) (st : HTTPTask) : bool :=
  awake e
  && match scheduled_events e (millis (t_now e)) st with
     | Returned (st1, _) =>
         negb (Z.of_nat (List.length (messages_ st1)) =? 0)
         && (MESSAGE_CYCLE_INTERVAL_MILLIS
             <? usub32 (millis (t_now e)) (last_message_change_time_ st1))
     | _ => false
     end.

(** The instants of the [showString] calls that display a queued message. *)
Definition cycle_times (trace : list iteration) : list Z :=
  map (fun it : iteration => t_show (fst (fst it)))
      (filter (fun it : iteration => cycles (fst (fst it)) (snd (fst it))) trace).

(** A row of the schedule stands for the local time of the iteration, the
    row of 11:35 only with WiFi connected. *)
Definition row_matches (e : env) : bool :=
  let hour := tm_hour e in
  let min := tm_min e in
  ((hour =? 9) && (min =? 0))
  || ((hour =? 11) && (min =? 35) && is_connected (wifi_after_reconnect e))
  || ((hour =? 12) && (min =? 0))
  || ((hour =? 13) && (min =? 0))
  || ((hour =? 13) && (min =? 55))
  || ((hour =? 17) && (min =? 0)).

(** The iteration fires a scheduled event: it pushes the strings of a row and
    sets [intraMinuteDuplicationProtection]. *)
Definition fires (e : env) (st : HTTPTask) : bool :=
  awake e
  && (60000 <? usub32 (millis (t_now e)) (intraMinuteDuplicationProtection st))
  && row_matches e.

(** The iterations of a run that fire a scheduled event. *)
Definition firings (trace : list iteration) : list env :=
  map (fun it : iteration => fst (fst it))
      (filter (fun it : iteration => fires (fst (fst it)) (snd (fst it))) trace).

(** The civil minute an iteration falls in, for a wall clock that reads
    [boot_epoch] milliseconds at boot and runs with the monotonic clock. *)
Definition civil_minute (boot_epoch : Z) (e : env) : Z :=
  (boot_epoch + t_now e) / 60000.

(** The body of a quote answer is not of the expected shape. *)
Definition quote_malformed (r : http_response) : bool :=
  let '(json, err) := Json_parse (payload r) in
  negb (is_empty_string err)
  || negb (is_object (at_key json "Global Quote"))
  || negb (is_string (at_key (at_key json "Global Quote") "05. price")).

(** ** Bring-up and the whole of [run] *)

(** [HTTPTask::connectWifi]. The callbacks registered with the updater run
    only during an update and are not part of the call. *)
Definition connectWifi (b : boot_env) (st : HTTPTask)
  : outcome (HTTPTask * list setup_call) :=
  waited <- await_wifi (status_polls b) ;;
  '(now, syncing) <- await_time (time_polls b) ;;
  '(_, st, quoted) <- addStockPriceToMessages "AMZN" (boot_quote b) st ;;
  Returned
    (set_last_message_change_time_ (millis (t_connected b)) st,
     [WiFi_begin WIFI_SSID (WIFI_PASSWORD b);
      Call (Log "Establishing connection to WiFi..");
      Call (SetMessage 1 (snprintf 256 ("Wifi connecting to " ++ WIFI_SSID)%string))]
     ++ map Call waited
     ++ [Call (Log (snprintf 256 ("Connected to network " ++ WIFI_SSID)%string));
         sntp_setoperatingmode_POLL;
         sntp_setservername 0 "time.nist.gov";
         sntp_init;
         Call (Log "Waiting for NTP time sync...");
         Call (SetMessage 1 (snprintf 256 "Syncing NTP time via time.nist.gov..."))]
     ++ map Call syncing
     ++ [setenv_TZ TIMEZONE 1;
         tzset;
         Call (Log (snprintf 256 ("Got time: " ++ strftime_local b now)%string));
         OTA_callbacks;
         OTA_begin;
         Call (Log (boot_ip b));
         Call (Log "Done with WiFi..");
         Call (ShowString "hi..." NUM_MODULES false)]
     ++ map Call quoted).

(** [HTTPTask::run], for as many iterations of its loop as there are
    environments: the calls of the bring-up, then the iterations.
    [stack_buf] is what the local [buf], which is not initialised, holds at
    first. *)
Definition run (b : boot_env) (stack_buf : string) (envs : list env)
    (st : HTTPTask)
  : outcome (list setup_call * list iteration * HTTPTask) :=
  '(st, setup) <- connectWifi b st ;;
  '(trace, final) <-
    run_loop envs
      {| messages_ := messages_ st;
         last_message_change_time_ := last_message_change_time_ st;
         m_lastSeenTime := m_lastSeenTime st;
         intraMinuteDuplicationProtection := 0;
         buf := stack_buf |} ;;
  Returned (setup, trace, final).

(** The strings the scheduled events of an iteration push. *)
Definition pushed_in (it : iteration) : list string :=
  let '(e, st, _) := it in
  if awake e then
    match scheduled_events e (millis (t_now e)) st with
    | Returned (st1, _) => skipn (List.length (messages_ st)) (messages_ st1)
    | _ => []
    end
  else [].

(** The message an iteration takes from the queue to display it. *)
Definition cycled_in (it : iteration) : list string :=
  let '(e, st, _) := it in
  if cycles e st then
    match scheduled_events e (millis (t_now e)) st with
    | Returned (st1, _) => firstn 1 (messages_ st1)
    | _ => []
    end
  else [].

(** * Properties *)

(** ** Wrapping timestamps *)

Lemma usub32_millis (a b : Z) : usub32 (millis a) (millis b) = wrap32 (a - b).
Proof.
  unfold usub32, millis, wrap32. symmetry. apply Zminus_mod.
Qed.

(** A test [gap < now - then] on wrapped timestamps that succeeds means that
    more than [gap] milliseconds really elapsed. *)
Lemma elapsed_more_than (a b gap : Z) :
  b <= a -> gap < usub32 (millis a) (millis b) -> gap < a - b.
Proof.
  intros Hle Hgap. rewrite usub32_millis in Hgap. unfold wrap32 in Hgap.
  assert (Hmod : (a - b) mod 2 ^ 32 <= a - b) by (apply Z.mod_le; lia).
  lia.
Qed.

(** ** What the steps of an iteration leave alone *)

Lemma push_all_fields (l : list string) (st : HTTPTask) :
  last_message_change_time_ (push_all l st) = last_message_change_time_ st
  /\ intraMinuteDuplicationProtection (push_all l st)
     = intraMinuteDuplicationProtection st
  /\ messages_ (push_all l st) = messages_ st ++ l.
Proof.
  revert st. induction l as [|s l IH]; intros st; simpl.
  - now rewrite app_nil_r.
  - destruct (IH (push s st)) as (H1 & H2 & H3).
    unfold push_all in *. rewrite H1, H2, H3. simpl.
    now rewrite <- app_assoc.
Qed.

Lemma format_price_text (priceNum : float) (text : string) :
  format_price priceNum = Returned text -> is_price text.
Proof.
  unfold format_price, is_price.
  repeat match goal with
         | |- context [if ?c then _ else _] => destruct c eqn:?
         end;
    intros H; inversion H; subst; try (left; reflexivity);
    right; do 2 eexists; (split; [|reflexivity]); lia.
Qed.

Lemma addStockPriceToMessages_fields (symbol : string) (r : http_response)
    (st st' : HTTPTask) (ok : bool) (fx : list effect) :
  addStockPriceToMessages symbol r st = Returned (ok, st', fx) ->
  last_message_change_time_ st' = last_message_change_time_ st
  /\ intraMinuteDuplicationProtection st' = intraMinuteDuplicationProtection st
  /\ exists pushed, pushed <> [] /\ messages_ st' = messages_ st ++ pushed.
Proof.
  unfold addStockPriceToMessages.
  destruct (0 <? http_code r).
  - destruct (Json_parse (payload r)) as [json err].
    destruct (negb (is_empty_string err)).
    { intros H; inversion H; subst; simpl. repeat split.
      exists [toLowerCase symbol]. split; [discriminate | reflexivity]. }
    destruct (negb (is_object (at_key json "Global Quote"))).
    { intros H; inversion H; subst; simpl. repeat split.
      exists [toLowerCase symbol]. split; [discriminate | reflexivity]. }
    destruct (negb (is_string (at_key (at_key json "Global Quote") "05. price"))).
    { intros H; inversion H; subst; simpl. repeat split.
      exists [toLowerCase symbol]. split; [discriminate | reflexivity]. }
    destruct (format_price _) as [text| |]; simpl; try discriminate.
    intros H; inversion H; subst; simpl. repeat split.
    exists [toLowerCase symbol; text]. split; [discriminate|].
    now rewrite <- app_assoc.
  - intros H; inversion H; subst; simpl. repeat split.
    exists [toLowerCase symbol]. split; [discriminate | reflexivity].
Qed.

Lemma scheduled_events_fields (e : env) (now : Z) (st st1 : HTTPTask)
    (fx : list effect) :
  scheduled_events e now st = Returned (st1, fx) ->
  last_message_change_time_ st1 = last_message_change_time_ st
  /\ intraMinuteDuplicationProtection st1
     = (if (60000 <? usub32 now (intraMinuteDuplicationProtection st))
           && row_matches e
        then now else intraMinuteDuplicationProtection st)
  /\ exists pushed,
       messages_ st1 = messages_ st ++ pushed
       /\ ((60000 <? usub32 now (intraMinuteDuplicationProtection st))
            && row_matches e = true -> pushed <> []).
Proof.
  unfold scheduled_events, row_matches.
  remember (tm_hour e) as hour eqn:Hhour. remember (tm_min e) as min eqn:Hmin.
  destruct (60000 <? usub32 now (intraMinuteDuplicationProtection st)) eqn:Hgate;
    cbn [andb].
  2: { intros H; returned H. repeat split. exists []. split.
       - now rewrite app_nil_r.
       - discriminate. }
  destruct (Z.eqb_spec hour 11) as [->|Hh11].
  - destruct (Z.eqb_spec min 35) as [->|Hm35]; cbn.
    + destruct (is_connected (wifi_after_reconnect e)); cbn.
      * destruct (addStockPriceToMessages "AMZN" (quote_AMZN e) _)
          as [[[ok1 s1] f1]| |] eqn:H1; cbn; try discriminate.
        destruct (addStockPriceToMessages "VOO" (quote_VOO e) s1)
          as [[[ok2 s2] f2]| |] eqn:H2; cbn; try discriminate.
        intros H; returned H.
        apply addStockPriceToMessages_fields in H1, H2.
        destruct H1 as (L1 & I1 & p1 & _ & M1).
        destruct H2 as (L2 & I2 & p2 & _ & M2).
        destruct (push_all_fields ["symbl"; "price"] st) as (L0 & I0 & M0).
        change (push_all ["symbl"; "price"] st)
          with (push "price" (push "symbl" st)) in L0, I0, M0.
        repeat split.
        -- congruence.
        -- exists (["symbl"; "price"] ++ p1 ++ p2). split.
           ++ rewrite M2, M1, M0. now rewrite <- !app_assoc.
           ++ discriminate.
      * intros H; returned H. repeat split. exists []. split.
        -- now rewrite app_nil_r.
        -- discriminate.
    + destruct (Z.eqb_spec min 0) as [->|Hm0]; cbn;
        [|destruct (Z.eqb_spec min 55) as [->|Hm55]; cbn];
        intros H; returned H; repeat split; exists []; (split;
          [now rewrite app_nil_r | discriminate]).
  - destruct (Z.eqb_spec hour 9) as [->|];
      [|destruct (Z.eqb_spec hour 12) as [->|];
        [|destruct (Z.eqb_spec hour 13) as [->|];
          [|destruct (Z.eqb_spec hour 17) as [->|]]]];
      cbn;
      (destruct (Z.eqb_spec min 0) as [->|];
       [|destruct (Z.eqb_spec min 55) as [->|]]);
      cbn; intros H; returned H; repeat split;
      try (exists []; split; [now rewrite app_nil_r | discriminate]);
      rewrite <- ?app_assoc; cbn [app];
      (eexists; split; [reflexivity | discriminate]).
Qed.

Lemma display_cycle_fields (e : env) (now : Z) (st1 st2 : HTTPTask)
    (fx : list effect) :
  display_cycle e now st1 = Returned (st2, fx) ->
  intraMinuteDuplicationProtection st2 = intraMinuteDuplicationProtection st1
  /\ last_message_change_time_ st2
     = (if negb (Z.of_nat (List.length (messages_ st1)) =? 0)
           && (MESSAGE_CYCLE_INTERVAL_MILLIS
               <? usub32 now (last_message_change_time_ st1))
        then millis (t_after e) else last_message_change_time_ st1).
Proof.
  unfold display_cycle.
  destruct (negb (Z.of_nat (List.length (messages_ st1)) =? 0)
            && (MESSAGE_CYCLE_INTERVAL_MILLIS
                <? usub32 now (last_message_change_time_ st1))).
  - destruct (messages_ st1) as [|message rest]; [discriminate|].
    destruct (pad_for_display message); cbn; try discriminate.
    intros H; returned H. split; reflexivity.
  - destruct (uadd32 _ _ <? now).
    + destruct (c_string_in_buf (buf st1)) as [stale| |]; cbn [bind];
        try discriminate.
      destruct (night_hours (tm_hour e)).
      * intros H; returned H. split; reflexivity.
      * destruct (pointer_neq _ _); intros H; returned H; split; reflexivity.
    + intros H; returned H. split; reflexivity.
Qed.

Lemma night_edge_is_night (e : env) :
  (tm_hour e =? 21) && (tm_min e =? 0) = true -> night_hours (tm_hour e) = true.
Proof.
  unfold night_hours. intros H. apply andb_prop in H. destruct H as [H _].
  apply Z.eqb_eq in H. rewrite H. reflexivity.
Qed.

(** An iteration sets [last_message_change_time_] exactly when it displays a
    queued message, and [intraMinuteDuplicationProtection] exactly when it
    fires a scheduled event. *)
Lemma tick_fields (e : env) (st st' : HTTPTask) (fx : list effect) :
  tick e st = Returned (st', fx) ->
  last_message_change_time_ st'
  = (if cycles e st then millis (t_after e) else last_message_change_time_ st)
  /\ intraMinuteDuplicationProtection st'
     = (if fires e st then millis (t_now e)
        else intraMinuteDuplicationProtection st).
Proof.
  unfold tick, cycles, fires, awake.
  destruct ((tm_hour e =? 21) && (tm_min e =? 0)) eqn:Hedge.
  { rewrite (night_edge_is_night e Hedge). intros H; returned H. split; reflexivity. }
  destruct (night_hours (tm_hour e)).
  { intros H; returned H. split; reflexivity. }
  cbn [negb andb].
  destruct (scheduled_events e (millis (t_now e)) st) as [[st1 fx1]| |] eqn:Hs;
    cbn; try discriminate.
  destruct (display_cycle e (millis (t_now e)) st1) as [[st2 fx2]| |] eqn:Hd;
    cbn; try discriminate.
  intros H; returned H.
  apply scheduled_events_fields in Hs. destruct Hs as (L1 & I1 & _).
  apply display_cycle_fields in Hd. destruct Hd as (I2 & L2).
  split.
  - rewrite L2, L1. reflexivity.
  - rewrite I2, I1. reflexivity.
Qed.

Lemma cycles_gate (e : env) (st : HTTPTask) :
  cycles e st = true ->
  MESSAGE_CYCLE_INTERVAL_MILLIS
  < usub32 (millis (t_now e)) (last_message_change_time_ st).
Proof.
  unfold cycles. intros H. apply andb_prop in H. destruct H as [_ H].
  destruct (scheduled_events e (millis (t_now e)) st) as [[st1 fx1]| |] eqn:Hs;
    try discriminate.
  apply scheduled_events_fields in Hs. destruct Hs as (L1 & _).
  apply andb_prop in H. destruct H as [_ H]. apply Z.ltb_lt in H.
  now rewrite L1 in H.
Qed.

Lemma fires_gate (e : env) (st : HTTPTask) :
  fires e st = true ->
  60000 < usub32 (millis (t_now e)) (intraMinuteDuplicationProtection st).
Proof.
  unfold fires. intros H. apply andb_prop in H. destruct H as [H _].
  apply andb_prop in H. destruct H as [_ H]. now apply Z.ltb_lt in H.
Qed.

Lemma run_loop_cons (e : env) (rest : list env) (st final : HTTPTask)
    (trace : list iteration) :
  run_loop (e :: rest) st = Returned (trace, final) ->
  exists st' fx trace',
    tick e st = Returned (st', fx)
    /\ run_loop rest st' = Returned (trace', final)
    /\ trace = (e, st, fx) :: trace'.
Proof.
  cbn [run_loop].
  destruct (tick e st) as [[st' fx]| |] eqn:Htick; cbn; try discriminate.
  destruct (run_loop rest st') as [[trace' final']| |] eqn:Hrest; cbn;
    try discriminate.
  intros H. inversion H; subst. exists st', fx, trace'. auto.
Qed.

Lemma chronological_earlier (t t' : Z) (envs : list env) :
  t' <= t -> chronological t envs -> chronological t' envs.
Proof.
  destruct envs as [|e rest]; cbn; [trivial|]. intuition lia.
Qed.

(** ** A timestamp that gates an action

    Both the message cycle and the scheduled events follow one pattern: the
    action is taken only if more than [gap] milliseconds lie, in wrapping
    arithmetic, between [now] and a stored timestamp, and taking it stores a
    fresh timestamp. *)

Section Gate.

Variable acts : env -> HTTPTask -> bool.
Variable stamp : HTTPTask -> Z.
Variable t_act t_stamp : env -> Z.
Variable gap : Z.

Hypothesis stamp_set : forall e st st' fx,
  tick e st = Returned (st', fx) ->
  stamp st' = if acts e st then millis (t_stamp e) else stamp st.
Hypothesis acts_gate : forall e st,
  acts e st = true -> gap < usub32 (millis (t_now e)) (stamp st).
Hypothesis act_order : forall e,
  t_now e <= t_show e -> t_show e <= t_after e ->
  t_now e <= t_act e /\ t_act e <= t_stamp e /\ t_stamp e <= t_after e.

Definition act_times (trace : list iteration) : list Z :=
  map (fun it : iteration => t_act (fst (fst it)))
      (filter (fun it : iteration => acts (fst (fst it)) (snd (fst it))) trace).

Lemma act_times_cons (e : env) (st : HTTPTask) (fx : list effect)
    (trace : list iteration) :
  act_times ((e, st, fx) :: trace)
  = if acts e st then t_act e :: act_times trace else act_times trace.
Proof.
  unfold act_times. cbn. destruct (acts e st); reflexivity.
Qed.

Lemma act_times_after_stamp (envs : list env) :
  forall (st final : HTTPTask) (trace : list iteration) (T : Z),
    chronological T envs ->
    stamp st = millis T ->
    run_loop envs st = Returned (trace, final) ->
    Forall (fun t => gap < t - T) (act_times trace)
    /\ ForallOrdPairs (fun a b => gap < b - a) (act_times trace).
Proof.
  induction envs as [|e rest IH]; intros st final trace T Hchrono Hstamp Hrun.
  - cbn in Hrun. inversion Hrun; subst. split; constructor.
  - apply run_loop_cons in Hrun.
    destruct Hrun as (st' & fx & trace' & Htick & Hrest & ->).
    destruct Hchrono as (HT & Hns & Hsa & Hchrono).
    destruct (act_order e Hns Hsa) as (Hna & Has & Hsa').
    rewrite act_times_cons.
    pose proof (stamp_set _ _ _ _ Htick) as Hset.
    destruct (acts e st) eqn:Hacts.
    + assert (Hchrono' : chronological (t_stamp e) rest)
        by (apply chronological_earlier with (t := t_after e); assumption).
      destruct (IH st' final trace' (t_stamp e) Hchrono' Hset Hrest) as [Hall Hpairs].
      pose proof (acts_gate _ _ Hacts) as Hgate. rewrite Hstamp in Hgate.
      apply elapsed_more_than in Hgate; [|assumption].
      repeat split.
      * constructor; [lia|].
        eapply Forall_impl; [|exact Hall]. cbn. intros t Ht. lia.
      * constructor; [|assumption].
        eapply Forall_impl; [|exact Hall]. cbn. intros t Ht. lia.
    + assert (Hchrono' : chronological T rest)
        by (apply chronological_earlier with (t := t_after e); [lia | assumption]).
      rewrite Hstamp in Hset.
      exact (IH st' final trace' T Hchrono' Hset Hrest).
Qed.

Lemma act_times_apart (envs : list env) :
  forall (st final : HTTPTask) (trace : list iteration) (since : Z),
    chronological since envs ->
    run_loop envs st = Returned (trace, final) ->
    ForallOrdPairs (fun a b => gap < b - a) (act_times trace).
Proof.
  induction envs as [|e rest IH]; intros st final trace since Hchrono Hrun.
  - cbn in Hrun. inversion Hrun; subst. constructor.
  - apply run_loop_cons in Hrun.
    destruct Hrun as (st' & fx & trace' & Htick & Hrest & ->).
    destruct Hchrono as (HT & Hns & Hsa & Hchrono).
    destruct (act_order e Hns Hsa) as (Hna & Has & Hsa').
    rewrite act_times_cons.
    pose proof (stamp_set _ _ _ _ Htick) as Hset.
    destruct (acts e st) eqn:Hacts.
    + assert (Hchrono' : chronological (t_stamp e) rest)
        by (apply chronological_earlier with (t := t_after e); assumption).
      destruct (act_times_after_stamp rest st' final trace' (t_stamp e)
                  Hchrono' Hset Hrest) as [Hall Hpairs].
      constructor; [|assumption].
      eapply Forall_impl; [|exact Hall]. cbn. intros t Ht. lia.
    + exact (IH st' final trace' (t_after e) Hchrono Hrest).
Qed.

End Gate.

Lemma pairs_consecutive (gap : Z) (times : list Z) :
  ForallOrdPairs (fun a b => gap < b - a) times ->
  consecutive_at_least gap times.
Proof.
  induction 1 as [|t rest Hall Hpairs IH]; cbn; [trivial|].
  split; [|assumption].
  destruct rest as [|t2 rest']; [trivial|].
  inversion Hall; subst. lia.
Qed.

(** ** The cycle of queued messages *)

(** An iteration that takes the first branch of the display step shows the
    padded message at the front of the queue and removes it. *)
Lemma cycles_displays_front (e : env) (st st' : HTTPTask) (fx : list effect) :
  cycles e st = true ->
  tick e st = Returned (st', fx) ->
  exists st1 fx1 message padded,
    scheduled_events e (millis (t_now e)) st = Returned (st1, fx1)
    /\ messages_ st1 = message :: messages_ st'
    /\ pad_for_display message = Returned padded
    /\ In (ShowString padded NUM_MODULES false) fx.
Proof.
  unfold cycles, tick, awake. intros Hc.
  apply andb_prop in Hc. destruct Hc as [Hawake Hc].
  destruct ((tm_hour e =? 21) && (tm_min e =? 0)) eqn:Hedge.
  { rewrite (night_edge_is_night e Hedge) in Hawake. discriminate. }
  destruct (night_hours (tm_hour e)); [discriminate|].
  destruct (scheduled_events e (millis (t_now e)) st) as [[st1 fx1]| |];
    try discriminate.
  cbn [bind]. unfold display_cycle.
  rewrite Hc.
  destruct (messages_ st1) as [|message rest] eqn:Hqueue; [discriminate|].
  destruct (pad_for_display message) as [padded| |] eqn:Hpad; cbn;
    try discriminate.
  intros H; inversion H; subst; clear H.
  exists st1, fx1, message, padded.
  split; [reflexivity|]. split; [exact Hqueue|]. split; [exact Hpad|].
  right. apply in_or_app. right. cbn. auto.
Qed.

(** C1, as the code has it: the calls that display a queued message are at
    least [MESSAGE_CYCLE_INTERVAL_MILLIS] apart, each from the one before
    it, in any run whose instants are in order; the wrapping of [millis()]
    does not matter. The calls that show the clock or [night] are outside
    the statement. *)
Theorem queued_messages_cycle_rate (since : Z) (envs : list env)
    (st final : HTTPTask) (trace : list iteration) :
  chronological since envs ->
  run_loop envs st = Returned (trace, final) ->
  consecutive_at_least MESSAGE_CYCLE_INTERVAL_MILLIS (cycle_times trace).
Proof.
  intros Hchrono Hrun. apply pairs_consecutive.
  apply (act_times_apart cycles last_message_change_time_ t_show t_after
           MESSAGE_CYCLE_INTERVAL_MILLIS)
    with (envs := envs) (st := st) (final := final) (since := since);
    try assumption.
  - intros e s s' fx Htick. apply (tick_fields e s s' fx Htick).
  - apply cycles_gate.
  - intros e H1 H2. repeat split; (assumption || lia).
Qed.

(** ** Night hours *)

(** C2: an iteration whose local hour is 21 or later, or 8 or earlier, leaves
    the task as it is (nothing is pushed, no timestamp is set, so no
    scheduled event fires and no queued message is displayed) and, apart
    from the hook of the over-the-air update, only waits; the exception is
    the iteration at 21:00, which commands [night], then disables all the
    modules, then waits a minute. [night] has the width of the display: it is
    what the display would read of the padded text. *)
Theorem night_hours_quiet (e : env) (st : HTTPTask) :
  night_hours (tm_hour e) = true ->
  tick e st
  = Returned
      (st,
       if (tm_hour e =? 21) && (tm_min e =? 0)
       then [OTA_handle; ShowString "night" NUM_MODULES false; DisableAll;
             Delay 60000]
       else [OTA_handle; Delay 10000])
  /\ cycles e st = false
  /\ fires e st = false
  /\ exists padded,
       pad_for_display "night" = Returned padded
       /\ str_take (Z.to_nat NUM_MODULES) padded = "night".
Proof.
  intros Hnight. repeat split.
  - unfold tick. destruct ((tm_hour e =? 21) && (tm_min e =? 0)); [reflexivity|].
    now rewrite Hnight.
  - unfold cycles, awake. now rewrite Hnight.
  - unfold fires, awake. now rewrite Hnight.
  - eexists. split; vm_compute; reflexivity.
Qed.

(** ** Scheduled events *)

(** An iteration that fires pushes at least one string and stores the
    instant it started at. *)
Lemma fires_pushes (e : env) (st st1 : HTTPTask) (fx : list effect) :
  fires e st = true ->
  scheduled_events e (millis (t_now e)) st = Returned (st1, fx) ->
  intraMinuteDuplicationProtection st1 = millis (t_now e)
  /\ exists pushed, pushed <> [] /\ messages_ st1 = messages_ st ++ pushed.
Proof.
  unfold fires. intros Hf Hs. apply andb_prop in Hf. destruct Hf as [Hf Hrow].
  apply andb_prop in Hf. destruct Hf as [_ Hgate].
  apply scheduled_events_fields in Hs. destruct Hs as (_ & Hi & pushed & Hm & Hne).
  rewrite Hgate, Hrow in Hi, Hne. split; [exact Hi|].
  exists pushed. split; [apply Hne; reflexivity | exact Hm].
Qed.

Lemma pairs_map {A : Type} (f : A -> Z) (R : Z -> Z -> Prop) (l : list A) :
  ForallOrdPairs R (map f l) -> ForallOrdPairs (fun a b => R (f a) (f b)) l.
Proof.
  induction l as [|a l IH]; cbn; intros H; [constructor|].
  inversion H as [|? ? Hall Hpairs]; subst. constructor; [|auto].
  rewrite Forall_forall in Hall |- *. intros b Hb. apply Hall. now apply in_map.
Qed.

Lemma pairs_impl {A : Type} (R S : A -> A -> Prop) (l : list A) :
  (forall a b, R a b -> S a b) -> ForallOrdPairs R l -> ForallOrdPairs S l.
Proof.
  intros HRS. induction 1 as [|a l Hall Hpairs IH]; constructor; [|assumption].
  eapply Forall_impl; [|exact Hall]. apply HRS.
Qed.

Lemma increasing_NoDup {A : Type} (g : A -> Z) (l : list A) :
  ForallOrdPairs (fun a b => g a < g b) l -> NoDup (map g l).
Proof.
  induction 1 as [|a l Hall Hpairs IH]; cbn; constructor; [|assumption].
  intros Hin. apply in_map_iff in Hin. destruct Hin as (b & Heq & Hb).
  rewrite Forall_forall in Hall. specialize (Hall b Hb). lia.
Qed.

Lemma later_minute (boot_epoch ta tb : Z) :
  60000 < tb - ta -> (boot_epoch + ta) / 60000 < (boot_epoch + tb) / 60000.
Proof.
  intros H.
  assert (Hstep : (boot_epoch + ta) / 60000 + 1
                  = (boot_epoch + ta + 1 * 60000) / 60000)
    by (rewrite Z.div_add; lia).
  assert (Hle : (boot_epoch + ta + 1 * 60000) / 60000 <= (boot_epoch + tb) / 60000)
    by (apply Z.div_le_mono; lia).
  lia.
Qed.

(** C4: in any run whose instants are in order, any two iterations that fire
    a scheduled event start more than 60000 ms apart, whatever the wrapping
    of [millis()]; hence no two of them fall in the same civil minute. *)
Theorem scheduled_events_debounced (since : Z) (envs : list env)
    (st final : HTTPTask) (trace : list iteration) :
  chronological since envs ->
  run_loop envs st = Returned (trace, final) ->
  ForallOrdPairs (fun a b => 60000 < t_now b - t_now a) (firings trace)
  /\ forall boot_epoch, NoDup (map (civil_minute boot_epoch) (firings trace)).
Proof.
  intros Hchrono Hrun.
  assert (Hpairs :
            ForallOrdPairs (fun a b => 60000 < t_now b - t_now a) (firings trace)).
  { apply pairs_map with (R := fun a b => 60000 < b - a).
    unfold firings. rewrite map_map.
    apply (act_times_apart fires intraMinuteDuplicationProtection t_now t_now 60000)
      with (envs := envs) (st := st) (final := final) (since := since);
      try assumption.
    - intros e s s' fx Htick. apply (tick_fields e s s' fx Htick).
    - apply fires_gate.
    - intros e H1 H2. repeat split; lia. }
  split; [exact Hpairs|].
  intros boot_epoch. apply increasing_NoDup.
  eapply pairs_impl; [|exact Hpairs].
  intros a b Hab. unfold civil_minute. now apply later_minute.
Qed.

(** ** Quote summary *)

(** C8, as the code has it: when the request is answered and the body does
    not parse, or has no object [Global Quote], or no string [05. price] in
    it, the call returns [false] after one log line, without a price in the
    queue; the lower-case symbol, pushed before the request is sent, stays
    at the back of the queue. *)
Theorem quote_failure_keeps_symbol (symbol : string) (r : http_response)
    (st : HTTPTask) :
  0 < http_code r ->
  quote_malformed r = true ->
  exists line,
    addStockPriceToMessages symbol r st
    = Returned
        (false,
         push (toLowerCase symbol) st,
         [HttpBegin
            ("https://www.alphavantage.co/query?function=GLOBAL_QUOTE&symbol="
             ++ symbol ++ "&apikey=" ++ ALPHAVANTAGE_TOKEN)%string;
          HttpGET;
          Log line]).
Proof.
  intros Hcode Hbad. unfold addStockPriceToMessages, quote_malformed in *.
  apply Z.ltb_lt in Hcode. rewrite Hcode.
  destruct (Json_parse (payload r)) as [json err].
  destruct (negb (is_empty_string err)); [eexists; reflexivity|].
  destruct (negb (is_object (at_key json "Global Quote"))); [eexists; reflexivity|].
  destruct (negb (is_string (at_key (at_key json "Global Quote") "05. price")));
    [eexists; reflexivity | discriminate].
Qed.

(** ** The idle clock *)

(** With nothing queued, outside the night hours, past the test on the
    time of the last message change and with a text in [buf] that has its
    terminator, the clock text is shown and remembered whatever text was
    remembered before: the comparison that guards the call is one of
    addresses. *)
Lemma clock_shown_whatever_remembered (e : env) (now : Z) (st : HTTPTask)
    (stale : string) :
  messages_ st = [] ->
  night_hours (tm_hour e) = false ->
  uadd32 (last_message_change_time_ st) MESSAGE_CYCLE_INTERVAL_MILLIS < now ->
  c_string_in_buf (buf st) = Returned stale ->
  exists line,
    display_cycle e now st
    = Returned
        ({| messages_ := [];
            last_message_change_time_ := last_message_change_time_ st;
            m_lastSeenTime := strftime_tHHMM e;
            intraMinuteDuplicationProtection := intraMinuteDuplicationProtection st;
            buf := line |},
         [Log stale; Log line; ShowString (strftime_tHHMM e) NUM_MODULES false]).
Proof.
  intros Hq Hday Hgate Hbuf. unfold display_cycle.
  rewrite Hq, Hday, Hbuf. cbn [List.length].
  apply Z.ltb_lt in Hgate. rewrite Hgate. cbn. eexists. reflexivity.
Qed.

(** * Further properties *)

(** ** Quote summary, all paths *)

Lemma quote_shape (symbol : string) (r : http_response) (st st' : HTTPTask)
    (ok : bool) (fx : list effect) :
  addStockPriceToMessages symbol r st = Returned (ok, st', fx) ->
  exists tail,
    st' = set_messages (messages_ st ++ toLowerCase symbol :: tail) st
    /\ (List.length tail <= 1)%nat
    /\ Forall is_price tail
    /\ (ok = false -> tail = [])
    /\ forallb background fx = true
    /\ existsb is_HttpEnd fx = ok.
Proof.
  unfold addStockPriceToMessages.
  destruct (0 <? http_code r).
  - destruct (Json_parse (payload r)) as [json err].
    destruct (negb (is_empty_string err)).
    { intros H; inversion H; subst. exists []. cbn. repeat split; auto. }
    destruct (negb (is_object (at_key json "Global Quote"))).
    { intros H; inversion H; subst. exists []. cbn. repeat split; auto. }
    destruct (negb (is_string (at_key (at_key json "Global Quote") "05. price"))).
    { intros H; inversion H; subst. exists []. cbn. repeat split; auto. }
    destruct (format_price _) as [text| |] eqn:Hprice; cbn [bind];
      try discriminate.
    intros H; inversion H; subst. exists [text].
    apply format_price_text in Hprice.
    split.
    { unfold push, set_messages.
      cbn [messages_ last_message_change_time_ m_lastSeenTime
           intraMinuteDuplicationProtection buf].
      rewrite <- app_assoc. reflexivity. }
    cbn. repeat split; auto. discriminate.
  - intros H; inversion H; subst. exists []. cbn. repeat split; auto.
Qed.

(** X1: whatever the answer, a call of [addStockPriceToMessages] that returns
    has appended the lower-case symbol to the queue, followed by at most one
    more string, the price; a price is there only if the call returns
    [true], and it is either [" big "] or the text [dtostrf] wrote for a
    width of 5 and a precision of 0, 1 or 2, however long that text is;
    nothing else of the task changes. *)
Theorem quote_enqueues_symbol_then_price (symbol : string) (r : http_response)
    (st st' : HTTPTask) (ok : bool) (fx : list effect) :
  addStockPriceToMessages symbol r st = Returned (ok, st', fx) ->
  exists tail,
    st' = set_messages (messages_ st ++ toLowerCase symbol :: tail) st
    /\ (List.length tail <= 1)%nat
    /\ Forall is_price tail
    /\ (ok = false -> tail = []).
Proof.
  intros H. destruct (quote_shape _ _ _ _ _ _ H) as (tail & H1 & H2 & H3 & H4 & _).
  exists tail. auto.
Qed.

(** X2: [addStockPriceToMessages] calls [http.end()] exactly on the paths
    that return [true]: the three returns after a body that does not parse
    or has not the expected shape leave the request without it. *)
Theorem quote_ends_request_iff_true (symbol : string) (r : http_response)
    (st st' : HTTPTask) (ok : bool) (fx : list effect) :
  addStockPriceToMessages symbol r st = Returned (ok, st', fx) ->
  existsb is_HttpEnd fx = ok.
Proof.
  intros H. destruct (quote_shape _ _ _ _ _ _ H) as (tail & _ & _ & _ & _ & _ & H6).
  exact H6.
Qed.

(** ** The iteration as a whole *)

Lemma push_all_messages (l : list string) (st : HTTPTask) :
  push_all l st = set_messages (messages_ st ++ l) st.
Proof.
  revert st. induction l as [|s l IH]; intros st; cbn [push_all fold_left].
  - rewrite app_nil_r. destruct st; reflexivity.
  - fold (push_all l (push s st)). rewrite IH. cbn.
    now rewrite <- app_assoc.
Qed.

Ltac literals_fit :=
  repeat (constructor; [left; vm_compute; discriminate|]); constructor.

Ltac row_pushes :=
  let H := fresh in
  intros H; inversion H; subst; cbn; rewrite <- ?app_assoc; cbn [app];
  eexists; repeat split; [cbn; lia | literals_fit].

(** What the scheduled events do to the task: they append at most six
    strings, each of at most five characters unless it is a price, set the
    timestamp of the last firing if they fire, and make no call that moves
    the flaps or waits. *)
Lemma scheduled_events_shape (e : env) (now : Z) (st st1 : HTTPTask)
    (fx : list effect) :
  scheduled_events e now st = Returned (st1, fx) ->
  exists pushed,
    messages_ st1 = messages_ st ++ pushed
    /\ (List.length pushed <= 6)%nat
    /\ Forall (fun s => fits_display s \/ is_price s) pushed
    /\ forallb background fx = true
    /\ m_lastSeenTime st1 = m_lastSeenTime st
    /\ buf st1 = buf st.
Proof.
  unfold scheduled_events.
  destruct (60000 <? usub32 now (intraMinuteDuplicationProtection st)).
  2: { intros H; inversion H; subst. exists []. rewrite app_nil_r.
       cbn. repeat split; auto; try (cbn; lia); constructor. }
  destruct ((tm_hour e =? 9) && (tm_min e =? 0)).
  { row_pushes. }
  destruct ((tm_hour e =? 11) && (tm_min e =? 35)).
  { destruct (is_connected (wifi_after_reconnect e)).
    - rewrite push_all_messages.
      destruct (addStockPriceToMessages "AMZN" (quote_AMZN e) _)
        as [[[ok1 s1] f1]| |] eqn:H1; cbn [bind]; try discriminate.
      destruct (addStockPriceToMessages "VOO" (quote_VOO e) s1)
        as [[[ok2 s2] f2]| |] eqn:H2; cbn [bind]; try discriminate.
      intros H; inversion H; subst.
      destruct (quote_shape _ _ _ _ _ _ H1) as (t1 & -> & L1 & F1 & _ & B1 & _).
      destruct (quote_shape _ _ _ _ _ _ H2) as (t2 & -> & L2 & F2 & _ & B2 & _).
      exists (["symbl"; "price"] ++ "amzn" :: t1 ++ "voo" :: t2).
      cbn [set_intraMinuteDuplicationProtection set_messages messages_
           m_lastSeenTime buf toLowerCase].
      repeat split.
      + rewrite <- !app_assoc. reflexivity.
      + cbn. rewrite length_app. cbn. lia.
      + apply Forall_app. split; [literals_fit|].
        constructor; [left; vm_compute; discriminate|].
        apply Forall_app.
        split; [eapply Forall_impl; [|exact F1]; cbn; auto|].
        constructor; [left; vm_compute; discriminate|].
        eapply Forall_impl; [|exact F2]; cbn; auto.
      + rewrite !forallb_app, B1, B2.
        destruct (is_connected (wifi_before_reconnect e)); reflexivity.
    - intros H; inversion H; subst. exists []. rewrite app_nil_r.
      repeat split; auto; try (cbn; lia); try constructor.
      destruct (is_connected (wifi_before_reconnect e)); reflexivity. }
  destruct ((tm_hour e =? 12) && (tm_min e =? 0)).
  { row_pushes. }
  destruct ((tm_hour e =? 13) && (tm_min e =? 0)).
  { row_pushes. }
  destruct ((tm_hour e =? 13) && (tm_min e =? 55)).
  { row_pushes. }
  destruct ((tm_hour e =? 17) && (tm_min e =? 0)).
  { row_pushes. }
  intros H; inversion H; subst. exists []. rewrite app_nil_r.
  cbn. repeat split; auto; try (cbn; lia); constructor.
Qed.

(** What the display step does: either nothing, or it shows the clock and
    leaves the queue alone, or it takes the front of the queue and shows
    it; in each case at most one call moves the flaps and none waits. *)
Lemma display_cycle_shape (e : env) (now : Z) (st1 st2 : HTTPTask)
    (fx : list effect) :
  display_cycle e now st1 = Returned (st2, fx) ->
  forallb (fun f => negb (is_Delay f || is_OTA_handle f)) fx = true
  /\ (List.length (filter shows fx) <= 1)%nat
  /\ messages_ st1
     = (if negb (Z.of_nat (List.length (messages_ st1)) =? 0)
           && (MESSAGE_CYCLE_INTERVAL_MILLIS
               <? usub32 now (last_message_change_time_ st1))
        then firstn 1 (messages_ st1) else [])
       ++ messages_ st2.
Proof.
  unfold display_cycle.
  destruct (negb (Z.of_nat (List.length (messages_ st1)) =? 0)
            && (MESSAGE_CYCLE_INTERVAL_MILLIS
                <? usub32 now (last_message_change_time_ st1))).
  - destruct (messages_ st1) as [|message rest]; [discriminate|].
    destruct (pad_for_display message); cbn [bind]; try discriminate.
    intros H; inversion H; subst. cbn. repeat split; auto.
  - destruct (uadd32 _ _ <? now).
    + destruct (c_string_in_buf (buf st1)) as [stale| |]; cbn [bind];
        try discriminate.
      destruct (night_hours (tm_hour e)).
      * intros H; inversion H; subst. cbn. repeat split; auto.
      * destruct (pointer_neq _ _); intros H; inversion H; subst; cbn;
          repeat split; auto.
    + intros H; inversion H; subst. cbn. repeat split; auto.
Qed.

Lemma background_no_wait (fx : list effect) :
  forallb background fx = true ->
  forallb (fun f => negb (is_Delay f || is_OTA_handle f)) fx = true
  /\ filter shows fx = [].
Proof.
  induction fx as [|f fx IH]; cbn; [auto|].
  intros H. apply andb_prop in H. destruct H as [Hf Hfx].
  destruct (IH Hfx) as [H1 H2]. rewrite H1, H2.
  unfold background in Hf. destruct f; cbn in *; try discriminate; auto.
Qed.

(** X3: every iteration of the loop that comes to its end calls the hook of
    the updater first, waits once, at its very end, for 1, 10 or 60 seconds,
    and in between calls [showString] at most once. *)
Theorem tick_shape (e : env) (st st' : HTTPTask) (fx : list effect) :
  tick e st = Returned (st', fx) ->
  exists body wait,
    fx = OTA_handle :: body ++ [Delay wait]
    /\ (wait = 1000 \/ wait = 10000 \/ wait = 60000)
    /\ forallb (fun f => negb (is_Delay f || is_OTA_handle f)) body = true
    /\ (List.length (filter shows body) <= 1)%nat.
Proof.
  unfold tick.
  destruct ((tm_hour e =? 21) && (tm_min e =? 0)).
  { intros H; inversion H; subst.
    exists [ShowString "night" NUM_MODULES false; DisableAll], 60000.
    cbn. repeat split; auto. }
  destruct (night_hours (tm_hour e)).
  { intros H; inversion H; subst. exists [], 10000. cbn. repeat split; auto. }
  destruct (scheduled_events e (millis (t_now e)) st) as [[st1 fx1]| |] eqn:Hs;
    cbn [bind]; try discriminate.
  destruct (display_cycle e (millis (t_now e)) st1) as [[st2 fx2]| |] eqn:Hd;
    cbn [bind]; try discriminate.
  intros H; inversion H; subst.
  destruct (scheduled_events_shape _ _ _ _ _ Hs) as (pushed & _ & _ & _ & Hb & _).
  destruct (background_no_wait _ Hb) as [Hb1 Hb2].
  destruct (display_cycle_shape _ _ _ _ _ Hd) as (Hd1 & Hd2 & _).
  eexists (fx1 ++ fx2 ++ [SetMessage 1 _]), 1000.
  repeat split.
  - cbn. rewrite <- !app_assoc. reflexivity.
  - auto.
  - rewrite !forallb_app, Hb1, Hd1. reflexivity.
  - rewrite !filter_app, Hb2. cbn. rewrite app_nil_r. exact Hd2.
Qed.

(** ** The queue along a run *)

Lemma skipn_app_exact {A : Type} (l pushed : list A) :
  skipn (List.length l) (l ++ pushed) = pushed.
Proof.
  induction l as [|x l IH]; cbn; auto.
Qed.

(** One iteration: what was queued and what the scheduled events push is
    what the iteration displays followed by what stays queued. *)
Lemma tick_queue (e : env) (st st' : HTTPTask) (fx : list effect) :
  tick e st = Returned (st', fx) ->
  messages_ st ++ pushed_in (e, st, fx) = cycled_in (e, st, fx) ++ messages_ st'
  /\ Forall (fun s => fits_display s \/ is_price s) (pushed_in (e, st, fx)).
Proof.
  unfold tick, pushed_in, cycled_in, cycles, awake.
  destruct ((tm_hour e =? 21) && (tm_min e =? 0)) eqn:Hedge.
  { rewrite (night_edge_is_night e Hedge). intros H; inversion H; subst.
    cbn. rewrite app_nil_r. auto. }
  destruct (night_hours (tm_hour e)).
  { intros H; inversion H; subst. cbn. rewrite app_nil_r. auto. }
  cbn [negb andb].
  destruct (scheduled_events e (millis (t_now e)) st) as [[st1 fx1]| |] eqn:Hs;
    cbn [bind]; try discriminate.
  destruct (display_cycle e (millis (t_now e)) st1) as [[st2 fx2]| |] eqn:Hd;
    cbn [bind]; try discriminate.
  intros H; inversion H; subst.
  destruct (scheduled_events_shape _ _ _ _ _ Hs) as (pushed & Hq & _ & Hfit & _).
  destruct (display_cycle_shape _ _ _ _ _ Hd) as (_ & _ & Hpop).
  assert (Hskip : skipn (List.length (messages_ st)) (messages_ st1) = pushed)
    by (rewrite Hq; apply skipn_app_exact).
  rewrite Hskip. split; [|exact Hfit].
  rewrite <- Hq. exact Hpop.
Qed.

Lemma fits_display_pads (message : string) :
  fits_display message ->
  pad_for_display message
  = Returned (message ++ spaces (Z.to_nat (sizeof_buf - str_len message)))%string.
Proof.
  unfold fits_display, pad_for_display. intros Hm.
  assert (H : (str_len message <? sizeof_buf) = true).
  { apply Z.ltb_lt. change sizeof_buf with 200.
    change NUM_MODULES with 5 in Hm. lia. }
  now rewrite H.
Qed.

(** X4: along a run the queue is a FIFO that loses nothing: the strings
    queued at the start, followed by those the scheduled events push, in
    order, are those the iterations take to display, in order, followed by
    those still queued at the end. *)
Theorem run_fifo (envs : list env) (st final : HTTPTask)
    (trace : list iteration) :
  run_loop envs st = Returned (trace, final) ->
  messages_ st ++ flat_map pushed_in trace
  = flat_map cycled_in trace ++ messages_ final.
Proof.
  revert st trace. induction envs as [|e rest IH]; intros st trace Hrun.
  - cbn in Hrun. inversion Hrun; subst. cbn. now rewrite app_nil_r.
  - apply run_loop_cons in Hrun.
    destruct Hrun as (st' & fx & trace' & Htick & Hrest & ->).
    cbn [flat_map].
    destruct (tick_queue _ _ _ _ Htick) as [Hq _].
    rewrite app_assoc, Hq, <- !app_assoc. f_equal.
    now apply IH.
Qed.

(** X5: only a price can be wider than the display. If every string queued
    at the start has at most [NUM_MODULES] characters or is a price text,
    then so is every string later taken from the queue or left in it: the
    words and symbols the loop itself pushes all fit. Each string taken that
    fits is passed to [showString] whole, followed by the spaces that fill
    [buf]. Nothing bounds the text [dtostrf] writes, so a price is the one
    message of which the display can show a part only. *)
Theorem only_prices_wider_than_display (envs : list env) :
  forall (st final : HTTPTask) (trace : list iteration),
    run_loop envs st = Returned (trace, final) ->
    Forall (fun s => fits_display s \/ is_price s) (messages_ st) ->
    Forall (fun s => fits_display s \/ is_price s) (messages_ final)
    /\ Forall
         (fun it : iteration =>
            forall message, In message (cycled_in it) ->
              (fits_display message \/ is_price message)
              /\ (fits_display message ->
                  In (ShowString
                        (message
                         ++ spaces (Z.to_nat (sizeof_buf - str_len message)))%string
                        NUM_MODULES false)
                     (snd it)))
         trace.
Proof.
  induction envs as [|e rest IH]; intros st final trace Hrun Hfit.
  - cbn in Hrun. inversion Hrun; subst. split; [assumption | constructor].
  - apply run_loop_cons in Hrun.
    destruct Hrun as (st' & fx & trace' & Htick & Hrest & ->).
    destruct (tick_queue _ _ _ _ Htick) as [Hq Hpushed].
    assert (Hall : Forall (fun s => fits_display s \/ is_price s)
                          (cycled_in (e, st, fx) ++ messages_ st')).
    { rewrite <- Hq. apply Forall_app. split; assumption. }
    apply Forall_app in Hall. destruct Hall as [Hcycled Hnext].
    destruct (IH st' final trace' Hrest Hnext) as [Hfinal Htrace].
    split; [exact Hfinal|]. constructor; [|exact Htrace].
    intros message Hin.
    split; [rewrite Forall_forall in Hcycled; now apply Hcycled|].
    intros Hm. cbn [cycled_in] in Hin.
    destruct (cycles e st) eqn:Hc; [|contradiction].
    destruct (cycles_displays_front e st st' fx Hc Htick)
      as (st1 & fx1 & front & padded & Hs & Hfront & Hpad & Hshow).
    rewrite Hs, Hfront in Hin. cbn in Hin. destruct Hin as [<-|[]].
    rewrite (fits_display_pads front Hm) in Hpad. inversion Hpad; subst.
    exact Hshow.
Qed.

(** X6: when the row of 11:35 fires, the queue grows by [symbl], [price],
    [amzn], the price of the first quote if its summary gives one, [voo],
    and the price of the second if its summary gives one: between four and
    six strings, in this order, whatever the two requests answer. *)
Theorem quote_row_pushes (e : env) (now : Z) (st st1 : HTTPTask)
    (fx : list effect) :
  tm_hour e = 11 -> tm_min e = 35 ->
  60000 < usub32 now (intraMinuteDuplicationProtection st) ->
  is_connected (wifi_after_reconnect e) = true ->
  scheduled_events e now st = Returned (st1, fx) ->
  exists price1 price2,
    messages_ st1
    = messages_ st ++ ["symbl"; "price"; "amzn"] ++ price1 ++ ["voo"] ++ price2
    /\ (List.length price1 <= 1)%nat /\ (List.length price2 <= 1)%nat
    /\ intraMinuteDuplicationProtection st1 = now.
Proof.
  intros Hh Hm Hgate Hwifi. unfold scheduled_events.
  apply Z.ltb_lt in Hgate. rewrite Hgate, Hwifi.
  replace ((tm_hour e =? 9) && (tm_min e =? 0)) with false
    by (rewrite Hh, Hm; reflexivity).
  replace ((tm_hour e =? 11) && (tm_min e =? 35)) with true
    by (rewrite Hh, Hm; reflexivity).
  rewrite (push_all_messages ["symbl"; "price"] st).
  destruct (addStockPriceToMessages "AMZN" (quote_AMZN e) _)
    as [[[ok1 s1] f1]| |] eqn:H1; cbn [bind]; try discriminate.
  destruct (addStockPriceToMessages "VOO" (quote_VOO e) s1)
    as [[[ok2 s2] f2]| |] eqn:H2; cbn [bind]; try discriminate.
  intros H; inversion H; subst.
  destruct (quote_shape _ _ _ _ _ _ H1) as (t1 & -> & L1 & _).
  destruct (quote_shape _ _ _ _ _ _ H2) as (t2 & -> & L2 & _).
  exists t1, t2. repeat split; auto.
  cbn [set_intraMinuteDuplicationProtection set_messages messages_].
  rewrite <- !app_assoc. reflexivity.
Qed.

(** X7: as long as [millis()] has not wrapped since the last message change
    and is not about to, a queue that is not empty keeps the clock off the
    display: the display step either does nothing at all or takes the front
    of the queue. *)
Theorem queue_goes_before_clock (e : env) (now : Z) (st st' : HTTPTask)
    (fx : list effect) :
  messages_ st <> [] ->
  0 <= last_message_change_time_ st <= now ->
  now < 2 ^ 32 ->
  last_message_change_time_ st + MESSAGE_CYCLE_INTERVAL_MILLIS < 2 ^ 32 ->
  display_cycle e now st = Returned (st', fx) ->
  (st' = st /\ fx = [])
  \/ (exists message,
        messages_ st = message :: messages_ st'
        /\ last_message_change_time_ st' = millis (t_after e)).
Proof.
  intros Hq Hlast Hnow Hsum. unfold display_cycle.
  assert (Hsub : usub32 now (last_message_change_time_ st)
                 = now - last_message_change_time_ st)
    by (unfold usub32, wrap32; apply Z.mod_small; lia).
  assert (Hadd : uadd32 (last_message_change_time_ st) MESSAGE_CYCLE_INTERVAL_MILLIS
                 = last_message_change_time_ st + MESSAGE_CYCLE_INTERVAL_MILLIS)
    by (unfold uadd32, wrap32; apply Z.mod_small;
        unfold MESSAGE_CYCLE_INTERVAL_MILLIS in *; lia).
  rewrite Hsub, Hadd.
  destruct (messages_ st) as [|message rest] eqn:Hm; [congruence|].
  cbn [List.length]. change (negb (Z.of_nat (S (List.length rest)) =? 0)) with true.
  cbn [andb].
  destruct (MESSAGE_CYCLE_INTERVAL_MILLIS <? now - last_message_change_time_ st)
    eqn:Hgate.
  - destruct (pad_for_display message); cbn [bind]; try discriminate.
    intros H; inversion H; subst. right. exists message. auto.
  - apply Z.ltb_ge in Hgate.
    assert (Hclock : (last_message_change_time_ st + MESSAGE_CYCLE_INTERVAL_MILLIS
                      <? now) = false) by (apply Z.ltb_ge; lia).
    rewrite Hclock. intros H; inversion H; subst. left. auto.
Qed.

(** ** Bring-up *)

Lemma await_wifi_returned (polls : list wl_status_t) (fx : list effect) :
  await_wifi polls = Returned fx ->
  exists k status,
    fx = repeat (Delay 1000) k
    /\ Forall (fun s => is_connected s = false) (firstn k polls)
    /\ nth_error polls k = Some status
    /\ is_connected status = true.
Proof.
  revert fx. induction polls as [|status later IH]; intros fx; cbn [await_wifi];
    [discriminate|].
  destruct (is_connected status) eqn:Hs.
  - intros H; inversion H; subst. exists 0%nat, status. cbn. auto.
  - destruct (await_wifi later) as [fx'| |]; cbn [bind]; try discriminate.
    intros H; inversion H; subst.
    destruct (IH fx' eq_refl) as (k & s' & -> & Hall & Hnth & Hc).
    exists (S k), s'. cbn. auto.
Qed.

Lemma await_time_returned (polls : list Z) (now : Z) (fx : list effect) :
  await_time polls = Returned (now, fx) ->
  exists j,
    fx = repeat (Delay 1000) j
    /\ Forall (fun t => t < TIME_FLOOR) (firstn j polls)
    /\ nth_error polls j = Some now
    /\ TIME_FLOOR <= now.
Proof.
  revert fx. induction polls as [|t later IH]; intros fx; cbn [await_time];
    [discriminate|].
  destruct (t <? TIME_FLOOR) eqn:Ht.
  - destruct (await_time later) as [[now' fx']| |]; cbn [bind]; try discriminate.
    intros H; inversion H; subst.
    destruct (IH fx' eq_refl) as (j & -> & Hall & Hnth & Hfloor).
    exists (S j). cbn. apply Z.ltb_lt in Ht. auto.
  - intros H; inversion H; subst. exists 0%nat. cbn.
    apply Z.ltb_ge in Ht. auto.
Qed.

Lemma await_wifi_waiting (polls : list wl_status_t) :
  Forall (fun s => is_connected s = false) polls -> await_wifi polls = OutOfFuel.
Proof.
  induction 1 as [|status later Hs Hall IH]; cbn [await_wifi]; [reflexivity|].
  now rewrite Hs, IH.
Qed.

Lemma await_wifi_defined (polls : list wl_status_t) :
  await_wifi polls = OutOfFuel \/ exists fx, await_wifi polls = Returned fx.
Proof.
  induction polls as [|status later IH]; cbn [await_wifi]; [auto|].
  destruct (is_connected status); [eauto|].
  destruct IH as [->|[fx ->]]; cbn [bind]; eauto.
Qed.

Lemma await_time_waiting (polls : list Z) :
  Forall (fun t => t < TIME_FLOOR) polls -> await_time polls = OutOfFuel.
Proof.
  induction 1 as [|t later Ht Hall IH]; cbn [await_time]; [reflexivity|].
  apply Z.ltb_lt in Ht. now rewrite Ht, IH.
Qed.

Lemma setup_delays_app (l1 l2 : list setup_call) :
  setup_delays (l1 ++ l2) = setup_delays l1 ++ setup_delays l2.
Proof. apply flat_map_app. Qed.

Lemma setup_shown_app (l1 l2 : list setup_call) :
  setup_shown (l1 ++ l2) = setup_shown l1 ++ setup_shown l2.
Proof. apply flat_map_app. Qed.

Lemma setup_delays_cons (c : setup_call) (l : list setup_call) :
  setup_delays (c :: l)
  = match c with Call (Delay ms) => [ms] | _ => [] end ++ setup_delays l.
Proof. reflexivity. Qed.

Lemma setup_shown_cons (c : setup_call) (l : list setup_call) :
  setup_shown (c :: l)
  = match c with Call (ShowString str _ _) => [str] | _ => [] end
    ++ setup_shown l.
Proof. reflexivity. Qed.

Lemma setup_delays_waited (k : nat) :
  setup_delays (map Call (repeat (Delay 1000) k)) = repeat 1000 k.
Proof.
  induction k as [|k IH]; cbn; [reflexivity|]. f_equal. exact IH.
Qed.

Lemma setup_shown_waited (k : nat) :
  setup_shown (map Call (repeat (Delay 1000) k)) = [].
Proof.
  induction k as [|k IH]; cbn; [reflexivity | exact IH].
Qed.

Lemma setup_background (fx : list effect) :
  forallb background fx = true ->
  setup_delays (map Call fx) = [] /\ setup_shown (map Call fx) = [].
Proof.
  induction fx as [|f fx IH]; cbn; [auto|].
  intros H. apply andb_prop in H. destruct H as [Hf Hfx].
  destruct (IH Hfx) as [H1 H2]. fold (setup_delays (map Call fx)).
  fold (setup_shown (map Call fx)). rewrite H1, H2.
  unfold background in Hf. destruct f; cbn in *; try discriminate; auto.
Qed.

Lemma connectWifi_inv (b : boot_env) (st st' : HTTPTask)
    (calls : list setup_call) :
  connectWifi b st = Returned (st', calls) ->
  exists waited now syncing ok st1 quoted,
    await_wifi (status_polls b) = Returned waited
    /\ await_time (time_polls b) = Returned (now, syncing)
    /\ addStockPriceToMessages "AMZN" (boot_quote b) st = Returned (ok, st1, quoted)
    /\ st' = set_last_message_change_time_ (millis (t_connected b)) st1
    /\ setup_delays calls = setup_delays (map Call waited ++ map Call syncing)
    /\ setup_shown calls = ["hi..."].
Proof.
  unfold connectWifi.
  destruct (await_wifi (status_polls b)) as [waited| |] eqn:Hw; cbn [bind];
    try discriminate.
  destruct (await_time (time_polls b)) as [[now syncing]| |] eqn:Ht; cbn [bind];
    try discriminate.
  destruct (addStockPriceToMessages "AMZN" (boot_quote b) st)
    as [[[ok st1] quoted]| |] eqn:Hq; cbn [bind]; try discriminate.
  intros [= <- <-].
  exists waited, now, syncing, ok, st1, quoted.
  destruct (quote_shape _ _ _ _ _ _ Hq) as (_ & _ & _ & _ & _ & Hb & _).
  destruct (setup_background quoted Hb) as [Hd Hs].
  destruct (await_wifi_returned _ _ Hw) as (k & _ & -> & _).
  destruct (await_time_returned _ _ _ Ht) as (j & -> & _).
  repeat split; auto.
  - repeat (rewrite ?setup_delays_cons, ?setup_delays_app; cbn [app]).
    rewrite Hd, !setup_delays_waited. now rewrite !app_nil_r.
  - repeat (rewrite ?setup_shown_cons, ?setup_shown_app; cbn [app]).
    rewrite Hs, !setup_shown_waited. reflexivity.
Qed.

(** X8: [connectWifi] comes to its end only after some answer of
    [WiFi.status()] was [WL_CONNECTED] and some answer of [time()] was at
    least 1625099485; before that it has waited one second for each earlier
    answer, and it makes no other wait. *)
Theorem connectWifi_waits (b : boot_env) (st st' : HTTPTask)
    (calls : list setup_call) :
  connectWifi b st = Returned (st', calls) ->
  exists k j status now,
    Forall (fun s => is_connected s = false) (firstn k (status_polls b))
    /\ nth_error (status_polls b) k = Some status
    /\ is_connected status = true
    /\ Forall (fun t => t < TIME_FLOOR) (firstn j (time_polls b))
    /\ nth_error (time_polls b) j = Some now
    /\ TIME_FLOOR <= now
    /\ setup_delays calls = repeat 1000 (k + j).
Proof.
  intros H. apply connectWifi_inv in H.
  destruct H as (waited & now & syncing & ok & st1 & quoted
                 & Hw & Ht & _ & _ & Hd & _).
  destruct (await_wifi_returned _ _ Hw) as (k & status & -> & Hk1 & Hk2 & Hk3).
  destruct (await_time_returned _ _ _ Ht) as (j & -> & Hj1 & Hj2 & Hj3).
  exists k, j, status, now. repeat split; auto.
  rewrite Hd, setup_delays_app, !setup_delays_waited. symmetry.
  apply repeat_app.
Qed.

(** X9: when [connectWifi] comes to its end it has shown exactly one
    string, [hi...]; the queue has grown by [amzn] and at most one price
    behind it; and the time of the last message change is the [millis()] of
    its last statement. *)
Theorem connectWifi_result (b : boot_env) (st st' : HTTPTask)
    (calls : list setup_call) :
  connectWifi b st = Returned (st', calls) ->
  setup_shown calls = ["hi..."]
  /\ last_message_change_time_ st' = millis (t_connected b)
  /\ exists price,
       messages_ st' = messages_ st ++ "amzn" :: price
       /\ (List.length price <= 1)%nat.
Proof.
  intros H. apply connectWifi_inv in H.
  destruct H as (waited & now & syncing & ok & st1 & quoted
                 & _ & _ & Hq & -> & _ & Hs).
  destruct (quote_shape _ _ _ _ _ _ Hq) as (price & -> & Hlen & _).
  repeat split; auto. exists price. auto.
Qed.

(** X10: if no answer of [WiFi.status()] is [WL_CONNECTED], or no answer of
    [time()] reaches 1625099485, [connectWifi] is still waiting when the
    answers are used up: the loop of [run] is never entered. *)
Theorem connectWifi_blocks (b : boot_env) (st : HTTPTask) :
  Forall (fun s => is_connected s = false) (status_polls b)
  \/ Forall (fun t => t < TIME_FLOOR) (time_polls b) ->
  connectWifi b st = OutOfFuel.
Proof.
  unfold connectWifi. intros [Hw|Ht].
  - now rewrite (await_wifi_waiting _ Hw).
  - destruct (await_wifi_defined (status_polls b)) as [->|[fx ->]];
      [reflexivity|].
    cbn [bind]. now rewrite (await_time_waiting _ Ht).
Qed.

(** ** The whole of [run] *)

Lemma run_inv (b : boot_env) (stack_buf : string) (envs : list env)
    (st final : HTTPTask) (setup : list setup_call) (trace : list iteration) :
  run b stack_buf envs st = Returned (setup, trace, final) ->
  exists st1,
    connectWifi b st = Returned (st1, setup)
    /\ run_loop envs
         {| messages_ := messages_ st1;
            last_message_change_time_ := last_message_change_time_ st1;
            m_lastSeenTime := m_lastSeenTime st1;
            intraMinuteDuplicationProtection := 0;
            buf := stack_buf |}
       = Returned (trace, final).
Proof.
  unfold run.
  destruct (connectWifi b st) as [[st1 setup']| |]; cbn [bind]; try discriminate.
  destruct (run_loop envs _) as [[trace' final']| |] eqn:Hloop; cbn [bind];
    try discriminate.
  intros H; inversion H; subst. exists st1. auto.
Qed.

Lemma background_not_shown (fx : list effect) :
  forallb background fx = true -> existsb shows fx = false.
Proof.
  induction fx as [|f fx IH]; cbn; [reflexivity|].
  intros H. apply andb_prop in H. destruct H as [Hf Hfx].
  rewrite (IH Hfx). unfold background in Hf.
  destruct f; cbn in *; try discriminate; reflexivity.
Qed.

(** The display step calls [showString] only past one of its two tests on
    the time of the last message change. *)
Lemma display_cycle_shows (e : env) (now : Z) (st1 st2 : HTTPTask)
    (fx : list effect) :
  display_cycle e now st1 = Returned (st2, fx) ->
  existsb shows fx = true ->
  MESSAGE_CYCLE_INTERVAL_MILLIS < usub32 now (last_message_change_time_ st1)
  \/ uadd32 (last_message_change_time_ st1) MESSAGE_CYCLE_INTERVAL_MILLIS < now.
Proof.
  unfold display_cycle.
  destruct (negb (Z.of_nat (List.length (messages_ st1)) =? 0)
            && (MESSAGE_CYCLE_INTERVAL_MILLIS
                <? usub32 now (last_message_change_time_ st1))) eqn:Hc.
  - intros _ _. left. apply andb_prop in Hc. destruct Hc as [_ Hc].
    now apply Z.ltb_lt.
  - destruct (uadd32 _ _ <? now) eqn:Hclock.
    + intros _ _. right. now apply Z.ltb_lt.
    + intros H; inversion H; subst. discriminate.
Qed.

(** An iteration calls [showString] only when the local time reads 21:00 or
    past one of the two tests on the time of the last message change. *)
Lemma tick_shows (e : env) (st st' : HTTPTask) (fx : list effect) :
  tick e st = Returned (st', fx) ->
  existsb shows fx = true ->
  night_edge e = true
  \/ MESSAGE_CYCLE_INTERVAL_MILLIS
     < usub32 (millis (t_now e)) (last_message_change_time_ st)
  \/ uadd32 (last_message_change_time_ st) MESSAGE_CYCLE_INTERVAL_MILLIS
     < millis (t_now e).
Proof.
  unfold tick, night_edge.
  destruct ((tm_hour e =? 21) && (tm_min e =? 0)); [auto|].
  destruct (night_hours (tm_hour e)).
  { intros H; inversion H; subst. discriminate. }
  destruct (scheduled_events e (millis (t_now e)) st) as [[st1 fx1]| |] eqn:Hs;
    cbn [bind]; try discriminate.
  destruct (display_cycle e (millis (t_now e)) st1) as [[st2 fx2]| |] eqn:Hd;
    cbn [bind]; try discriminate.
  intros H; inversion H; subst.
  destruct (scheduled_events_shape _ _ _ _ _ Hs) as (pushed & _ & _ & _ & Hb & _).
  destruct (scheduled_events_fields _ _ _ _ _ Hs) as (Hlast & _).
  cbn [app existsb shows orb]. rewrite !existsb_app, (background_not_shown _ Hb).
  cbn [existsb shows orb]. rewrite orb_false_r. intros Hshown. right.
  rewrite <- Hlast. exact (display_cycle_shows _ _ _ _ _ Hd Hshown).
Qed.

(** From an instant [T] short of the wrap of [millis()]: as long as the time
    of the last message change is [T], no iteration calls [showString]
    within [MESSAGE_CYCLE_INTERVAL_MILLIS] of [T], but at 21:00. *)
Lemma shows_after_stamp (T : Z) (envs : list env) :
  0 <= T -> T + MESSAGE_CYCLE_INTERVAL_MILLIS < 2 ^ 32 ->
  forall (st final : HTTPTask) (trace : list iteration) (since : Z),
    chronological since envs ->
    T <= since ->
    last_message_change_time_ st = millis T
    \/ MESSAGE_CYCLE_INTERVAL_MILLIS < since - T ->
    run_loop envs st = Returned (trace, final) ->
    Forall (fun it : iteration =>
              existsb shows (snd it) = true ->
              night_edge (fst (fst it)) = true
              \/ MESSAGE_CYCLE_INTERVAL_MILLIS < t_show (fst (fst it)) - T)
           trace.
Proof.
  intros HT Hsum.
  assert (HmT : millis T = T)
    by (unfold millis, wrap32; apply Z.mod_small;
        unfold MESSAGE_CYCLE_INTERVAL_MILLIS in Hsum; lia).
  induction envs as [|e rest IH]; intros st final trace since Hchrono Hsince Hinv Hrun.
  - cbn in Hrun. inversion Hrun; subst. constructor.
  - apply run_loop_cons in Hrun.
    destruct Hrun as (st' & fx & trace' & Htick & Hrest & ->).
    destruct Hchrono as (Hnow & Hns & Hsa & Hchrono).
    assert (Hgate : MESSAGE_CYCLE_INTERVAL_MILLIS
                    < usub32 (millis (t_now e)) (millis T) ->
                    MESSAGE_CYCLE_INTERVAL_MILLIS < t_now e - T)
      by (apply elapsed_more_than; lia).
    constructor.
    + cbn [fst snd]. intros Hshown.
      destruct Hinv as [Hlast|Hlate]; [|right; lia].
      destruct (tick_shows _ _ _ _ Htick Hshown) as [Hedge|[Hcycle|Hclock]].
      * left. exact Hedge.
      * right. rewrite Hlast in Hcycle. specialize (Hgate Hcycle). lia.
      * right. rewrite Hlast, HmT in Hclock.
        assert (Hadd : uadd32 T MESSAGE_CYCLE_INTERVAL_MILLIS
                       = T + MESSAGE_CYCLE_INTERVAL_MILLIS)
          by (unfold uadd32, wrap32; apply Z.mod_small;
              unfold MESSAGE_CYCLE_INTERVAL_MILLIS in *; lia).
        rewrite Hadd in Hclock.
        assert (Hmod : millis (t_now e) <= t_now e)
          by (unfold millis, wrap32; apply Z.mod_le; lia).
        lia.
    + apply (IH st' final trace' (t_after e) Hchrono); [lia| |exact Hrest].
      destruct Hinv as [Hlast|Hlate]; [|right; lia].
      destruct (tick_fields _ _ _ _ Htick) as [Hlast' _].
      destruct (cycles e st) eqn:Hc.
      * right. apply cycles_gate in Hc. rewrite Hlast in Hc.
        specialize (Hgate Hc). lia.
      * left. now rewrite Hlast'.
Qed.

(** X11: in a run whose instants are in order and whose bring-up ends short
    of the wrap of [millis()], no iteration calls [showString] within
    [MESSAGE_CYCLE_INTERVAL_MILLIS] of the end of [connectWifi], unless the
    local time reads 21:00: the greeting [hi...] stays for more than five
    seconds, except that [night] replaces it at once at 21:00. *)
Theorem greeting_stays (b : boot_env) (stack_buf : string) (envs : list env)
    (st final : HTTPTask) (setup : list setup_call) (trace : list iteration) :
  0 <= t_connected b ->
  t_connected b + MESSAGE_CYCLE_INTERVAL_MILLIS < 2 ^ 32 ->
  chronological (t_connected b) envs ->
  run b stack_buf envs st = Returned (setup, trace, final) ->
  Forall (fun it : iteration =>
            existsb shows (snd it) = true ->
            night_edge (fst (fst it)) = true
            \/ MESSAGE_CYCLE_INTERVAL_MILLIS
               < t_show (fst (fst it)) - t_connected b)
         trace.
Proof.
  intros Hpos Hsum Hchrono Hrun. apply run_inv in Hrun.
  destruct Hrun as (st1 & Hboot & Hloop).
  apply connectWifi_inv in Hboot.
  destruct Hboot as (waited & now & syncing & ok & st2 & quoted
                     & _ & _ & _ & -> & _).
  eapply (shows_after_stamp (t_connected b) envs Hpos Hsum);
    [exact Hchrono | lia | | exact Hloop].
  left. reflexivity.
Qed.

(** X12: the timestamp of the last firing starts at 0, so in a run whose
    instants are in order no scheduled event fires in the first 60000 ms
    after boot, whatever the local time: a row whose minute ends before that
    is missed. *)
Theorem no_event_in_first_minute (b : boot_env) (stack_buf : string)
    (envs : list env) (st final : HTTPTask) (setup : list setup_call)
    (trace : list iteration) :
  0 <= t_connected b ->
  chronological (t_connected b) envs ->
  run b stack_buf envs st = Returned (setup, trace, final) ->
  Forall (fun e => 60000 < t_now e) (firings trace).
Proof.
  intros Hpos Hchrono Hrun. apply run_inv in Hrun.
  destruct Hrun as (st1 & _ & Hloop).
  assert (Hchrono0 : chronological 0 envs)
    by (apply chronological_earlier with (t := t_connected b); assumption).
  assert (Hall : Forall (fun t => 60000 < t - 0) (act_times fires t_now trace)).
  { refine (proj1 (act_times_after_stamp fires intraMinuteDuplicationProtection
                     t_now t_now 60000 _ _ _ envs _ final trace 0 Hchrono0 _
                     Hloop)).
    - intros e s s' fx Htick. apply (tick_fields e s s' fx Htick).
    - apply fires_gate.
    - intros e H1 H2. repeat split; lia.
    - reflexivity. }
  unfold act_times in Hall. unfold firings.
  rewrite Forall_forall in Hall |- *. intros e He.
  apply in_map_iff in He. destruct He as (it & <- & Hit).
  specialize (Hall (t_now (fst (fst it)))).
  assert (60000 < t_now (fst (fst it)) - 0); [|lia].
  apply Hall. apply in_map_iff. exists it. auto.
Qed.

End Task.

(** ** Texts of numbers *)

Lemma substring_all (s : string) (n : nat) :
  (String.length s <= n)%nat -> String.substring 0 n s = s.
Proof.
  revert n. induction s as [|c s IH]; intros n Hn.
  - destruct n; reflexivity.
  - destruct n as [|n]; cbn in *; [lia|]. rewrite IH; [reflexivity | lia].
Qed.

(** A text shorter than the buffer is what [snprintf] leaves in it. *)
Lemma snprintf_fits (size : nat) (s : string) :
  (String.length s < size)%nat -> snprintf size s = s.
Proof.
  intros H. unfold snprintf, str_take. apply substring_all. lia.
Qed.

Lemma length_append (s1 s2 : string) :
  String.length (s1 ++ s2)%string = (String.length s1 + String.length s2)%nat.
Proof.
  induction s1 as [|c s1 IH]; cbn; [reflexivity | now rewrite IH].
Qed.

Lemma double_digits (d : Decimal.uint) :
  (Decimal.nb_digits (Decimal.Little.double d) <= S (Decimal.nb_digits d))%nat
  /\ (Decimal.nb_digits (Decimal.Little.succ_double d)
      <= S (Decimal.nb_digits d))%nat.
Proof.
  induction d as [|d [IH1 IH2]|d [IH1 IH2]|d [IH1 IH2]|d [IH1 IH2]|d [IH1 IH2]
                  |d [IH1 IH2]|d [IH1 IH2]|d [IH1 IH2]|d [IH1 IH2]|d [IH1 IH2]];
    cbn; split; lia.
Qed.

Lemma little_digits (p : positive) :
  (Decimal.nb_digits (Pos.to_little_uint p) <= Pos.size_nat p)%nat.
Proof.
  induction p as [p IH|p IH|]; cbn.
  - pose proof (proj2 (double_digits (Pos.to_little_uint p))). lia.
  - pose proof (proj1 (double_digits (Pos.to_little_uint p))). lia.
  - lia.
Qed.

Lemma length_string_of_uint (d : Decimal.uint) :
  String.length (NilEmpty.string_of_uint d) = Decimal.nb_digits d.
Proof.
  induction d; cbn; congruence.
Qed.

Lemma length_string_of_pos (p : positive) :
  (p <= 2 ^ 31)%positive ->
  (String.length (NilZero.string_of_uint (Pos.to_uint p)) <= 33)%nat.
Proof.
  intros Hp.
  assert (Hd : (Decimal.nb_digits (Pos.to_uint p) <= 33)%nat).
  { unfold Pos.to_uint. rewrite DecimalFacts.nb_digits_rev.
    pose proof (little_digits p) as H1.
    assert (H2 : (Pos.size_nat p <= Pos.size_nat (2 ^ 32))%nat)
      by (apply Pos.size_nat_monotone; lia).
    change (Pos.size_nat (2 ^ 32)) with 33%nat in H2. lia. }
  revert Hd. generalize (Pos.to_uint p). clear Hp. intros u Hu.
  destruct u; cbn in *; rewrite ?length_string_of_uint; lia.
Qed.

(** The decimal text of an [int] is short. *)
Lemma dec_int_short (z : Z) :
  INT_MIN <= z <= INT_MAX -> (String.length (dec z) <= 34)%nat.
Proof.
  unfold INT_MIN, INT_MAX, dec. intros Hz.
  destruct z as [|p|p]; cbn [Z.to_int NilZero.string_of_int String.length].
  - cbn. lia.
  - pose proof (length_string_of_pos p). lia.
  - pose proof (length_string_of_pos p). lia.
Qed.

(** A conversion that is defined gives an [int]: the value of the double
    rounded toward zero. *)
Lemma int_of_double_truncates (d : float) (z : Z) :
  int_of_double d = Returned z -> z = truncate d /\ INT_MIN <= z <= INT_MAX.
Proof.
  unfold int_of_double.
  destruct (Prim2SF d) as [s|s| |s m e]; try discriminate;
    (destruct ((INT_MIN <=? truncate d) && (truncate d <=? INT_MAX)) eqn:Hr;
     [|discriminate]);
    intros [= <-]; apply andb_prop in Hr; destruct Hr as [H1 H2];
    apply Z.leb_le in H1, H2; auto.
Qed.

(** It never fails to end, and when it is not defined it is for the one
    reason. *)
Lemma int_of_double_cases (d : float) :
  (exists z, int_of_double d = Returned z)
  \/ int_of_double d = Undefined "double outside the range of int".
Proof.
  unfold int_of_double.
  destruct (Prim2SF d) as [s|s| |s m e]; auto;
    destruct ((INT_MIN <=? truncate d) && (truncate d <=? INT_MAX)); eauto.
Qed.

(** The two weather strings fit the buffer they are formatted in. *)
Lemma weather_text_fits (z : Z) (unit_text : string) :
  INT_MIN <= z <= INT_MAX ->
  (String.length unit_text <= 3)%nat ->
  snprintf 200 (dec z ++ unit_text)%string = (dec z ++ unit_text)%string.
Proof.
  intros Hz Hu. apply snprintf_fits. rewrite length_append.
  pose proof (dec_int_short _ Hz). lia.
Qed.

(** ** Weather summary *)

Lemma skipn_nth_cons (l : list Json) (n : nat) :
  (n < List.length l)%nat -> skipn n l = nth n l JNull :: skipn (S n) l.
Proof.
  revert n. induction l as [|x l IH]; intros n Hn; cbn in Hn; [lia|].
  destruct n as [|n]; [reflexivity|].
  cbn [skipn nth]. apply IH. lia.
Qed.

(** With at most 255 stations the loop runs to its end, given fuel for one
    test more than there are stations left, and treats the stations in
    order. *)
Lemma station_loop_from (station_array : list Json) :
  (List.length station_array <= 255)%nat ->
  forall (fuel : nat) (i : Z) (temps wind_speeds : list float)
         (logged : list effect),
    0 <= i <= Z.of_nat (List.length station_array) ->
    (List.length station_array - Z.to_nat i < fuel)%nat ->
    station_loop fuel station_array i temps wind_speeds logged
    = Returned (collect (skipn (Z.to_nat i) station_array) temps wind_speeds logged).
Proof.
  intros Hsize. induction fuel as [|fuel IH]; intros i temps winds logged Hi Hfuel;
    [lia|].
  cbn [station_loop].
  destruct (i <? Z.of_nat (List.length station_array)) eqn:Hlt.
  - apply Z.ltb_lt in Hlt.
    rewrite (skipn_nth_cons station_array (Z.to_nat i)) by lia.
    cbn [collect].
    destruct (station_step (nth (Z.to_nat i) station_array JNull) temps winds)
      as [[temps' winds'] fx].
    assert (Hincr : uint8_incr i = i + 1)
      by (unfold uint8_incr; apply Z.mod_small; lia).
    rewrite Hincr, IH by lia.
    replace (Z.to_nat (i + 1)) with (S (Z.to_nat i)) by lia. reflexivity.
  - apply Z.ltb_ge in Hlt.
    rewrite skipn_all2 by lia. reflexivity.
Qed.

Lemma station_loop_collect (station_array : list Json) (fuel : nat) :
  (List.length station_array <= 255)%nat ->
  (List.length station_array < fuel)%nat ->
  station_loop fuel station_array 0 [] [] []
  = Returned (collect station_array [] [] []).
Proof.
  intros Hsize Hfuel.
  rewrite (station_loop_from station_array Hsize fuel 0) by (cbn; lia).
  reflexivity.
Qed.

(** With 256 stations or more the eight-bit counter never reaches the size of
    the array: no amount of fuel lets the loop end. *)
Lemma station_loop_never_ends (station_array : list Json) :
  (256 <= List.length station_array)%nat ->
  forall (fuel : nat) (i : Z) (temps wind_speeds : list float)
         (logged : list effect),
    0 <= i < 256 ->
    station_loop fuel station_array i temps wind_speeds logged = OutOfFuel.
Proof.
  intros Hsize. induction fuel as [|fuel IH]; intros i temps winds logged Hi;
    [reflexivity|].
  cbn [station_loop].
  assert (Hlt : (i <? Z.of_nat (List.length station_array)) = true)
    by (apply Z.ltb_lt; lia).
  rewrite Hlt.
  destruct (station_step (nth (Z.to_nat i) station_array JNull) temps winds)
    as [[temps' winds'] fx].
  apply IH. unfold uint8_incr. apply Z.mod_pos_bound. lia.
Qed.

(** A station adds its temperature as soon as the temperature is a number,
    and its wind speed only if both are numbers. *)
Lemma station_step_collects (item : Json) (temps wind_speeds : list float) :
  let air := at_key (at_key item "OBSERVATIONS") "air_temp_value_1" in
  let wind := at_key (at_key item "OBSERVATIONS") "wind_speed_value_1" in
  fst (fst (station_step item temps wind_speeds))
  = (if has_number "air_temp_value_1" item
     then temps ++ [number_value (at_key air "value")] else temps)
  /\ snd (fst (station_step item temps wind_speeds))
     = (if has_number "air_temp_value_1" item
           && has_number "wind_speed_value_1" item
        then wind_speeds ++ [number_value (at_key wind "value")]
        else wind_speeds).
Proof.
  unfold station_step, has_number.
  destruct item as [| | | | |members]; try (split; reflexivity).
  cbn [is_object negb at_key].
  destruct (member "OBSERVATIONS" members) as [| | | | |obs];
    try (split; reflexivity).
  cbn [is_object negb at_key].
  destruct (member "air_temp_value_1" obs) as [| | | | |air];
    try (split; reflexivity).
  cbn [is_object negb at_key].
  destruct (member "value" air) as [|t| | | |]; try (split; reflexivity).
  cbn [is_number negb andb number_value].
  destruct (member "wind_speed_value_1" obs) as [| | | | |wind];
    try (split; reflexivity).
  cbn [is_object negb at_key].
  destruct (member "value" wind) as [|w| | | |]; split; reflexivity.
Qed.

Lemma length_insert_sorted (x : float) (l : list float) :
  List.length (insert_sorted x l) = S (List.length l).
Proof.
  induction l as [|y l IH]; cbn [insert_sorted]; [reflexivity|].
  destruct (PrimFloat.ltb x y); cbn [List.length]; [reflexivity|].
  now rewrite IH.
Qed.

Lemma length_std_sort (v : list float) :
  List.length (std_sort v) = List.length v.
Proof.
  induction v as [|x v IH]; cbn [std_sort fold_right]; [reflexivity|].
  rewrite length_insert_sorted. fold (std_sort v). now rewrite IH.
Qed.

Lemma insert_sorted_perm (x : float) (l : list float) :
  Permutation (x :: l) (insert_sorted x l).
Proof.
  induction l as [|y l IH]; cbn [insert_sorted]; [reflexivity|].
  destruct (PrimFloat.ltb x y); [reflexivity|].
  rewrite perm_swap. now constructor.
Qed.

(** Sorting keeps the values, each as often as it occurred. *)
Lemma std_sort_perm (v : list float) : Permutation v (std_sort v).
Proof.
  induction v as [|x v IH]; cbn [std_sort fold_right]; [constructor|].
  rewrite <- insert_sorted_perm. now constructor.
Qed.

Lemma SFltb_asym (x y : spec_float) : SFltb x y = true -> SFltb y x = false.
Proof.
  unfold SFltb, SFcompare.
  destruct x as [s1|s1| |s1 m1 e1], y as [s2|s2| |s2 m2 e2];
    try destruct s1; try destruct s2; try discriminate; try reflexivity.
  - rewrite (Z.compare_antisym e1 e2), (ZC4 m2 m1).
    destruct (e1 ?= e2); cbn; try discriminate; try reflexivity.
    destruct (Pos.compare_cont Eq m1 m2); cbn; try discriminate; reflexivity.
  - rewrite (Z.compare_antisym e1 e2), (ZC4 m2 m1).
    destruct (e1 ?= e2); cbn; try discriminate; try reflexivity.
    destruct (Pos.compare_cont Eq m1 m2); cbn; try discriminate; reflexivity.
Qed.

Lemma ltb_asym (x y : float) :
  PrimFloat.ltb x y = true -> PrimFloat.ltb y x = false.
Proof.
  rewrite !ltb_spec. apply SFltb_asym.
Qed.

Lemma insert_sorted_ordered (x : float) (l : list float) :
  ordered l -> ordered (insert_sorted x l).
Proof.
  induction l as [|y l IH]; intros Hl; cbn [insert_sorted].
  - cbn. auto.
  - destruct (PrimFloat.ltb x y) eqn:Hxy.
    + split; [now apply ltb_asym | exact Hl].
    + destruct Hl as [Hhead Hrest]. split; [|now apply IH].
      destruct l as [|z l]; cbn [insert_sorted]; [exact Hxy|].
      destruct (PrimFloat.ltb x z); assumption.
Qed.

(** The sorted vector is in order: no value is less than the one before it. *)
Lemma std_sort_ordered (v : list float) : ordered (std_sort v).
Proof.
  induction v as [|x v IH]; cbn [std_sort fold_right]; [exact I|].
  now apply insert_sorted_ordered.
Qed.

Lemma even_of_nat (n : nat) : (Z.of_nat n mod 2 =? 0) = Nat.even n.
Proof.
  rewrite <- Zeven_mod.
  destruct (Nat.even n) eqn:E.
  - apply Nat.even_spec in E. destruct E as [k ->].
    apply Z.even_spec. exists (Z.of_nat k). lia.
  - apply not_true_is_false. intros H. apply Z.even_spec in H.
    destruct H as [m Hm].
    assert (Ho : Nat.odd n = true) by (rewrite <- Nat.negb_even, E; reflexivity).
    apply Nat.odd_spec in Ho. destruct Ho as [k ->]. lia.
Qed.

Lemma half_of_nat (n : nat) : Z.of_nat n / 2 = Z.of_nat (n / 2).
Proof. now rewrite Nat2Z.inj_div. Qed.

Lemma vector_at_inside (v : list float) (i : nat) :
  (i < List.length v)%nat ->
  vector_at v (Z.of_nat i) = Returned (nth i v 0%float).
Proof.
  intros Hi. unfold vector_at.
  assert (H1 : (0 <=? Z.of_nat i) = true) by (apply Z.leb_le; lia).
  assert (H2 : (Z.of_nat i <? Z.of_nat (List.length v)) = true)
    by (apply Z.ltb_lt; lia).
  rewrite H1, H2, Nat2Z.id. reflexivity.
Qed.

(** When as many wind speeds as temperatures were collected, the indices the
    code computes are inside both vectors and the medians it reads are those
    of the specification. *)
Lemma medians_spec (temps wind_speeds : list float) :
  temps <> [] ->
  List.length wind_speeds = List.length temps ->
  medians (Z.of_nat (List.length temps)) (std_sort temps) (std_sort wind_speeds)
  = Returned (spec_median temps, spec_median wind_speeds).
Proof.
  intros Hne Hlen. unfold medians, spec_median.
  rewrite even_of_nat, half_of_nat, Hlen.
  set (n := List.length temps).
  assert (Hn : (0 < n)%nat) by (destruct temps; [congruence | cbn; lia]).
  assert (Hhalf : (n / 2 < n)%nat) by (apply Nat.div_lt; lia).
  destruct (Nat.even n) eqn:E.
  - assert (H2 : (2 <= n)%nat).
    { apply Nat.even_spec in E. destruct E as [k Hk]. lia. }
    assert (Hpos : (1 <= n / 2)%nat)
      by (change 1%nat with (2 / 2)%nat; apply Nat.Div0.div_le_mono; exact H2).
    replace (Z.of_nat (n / 2) - 1) with (Z.of_nat (n / 2 - 1)) by lia.
    rewrite !vector_at_inside by (rewrite length_std_sort; fold n; lia).
    reflexivity.
  - rewrite !vector_at_inside by (rewrite length_std_sort; fold n; lia).
    reflexivity.
Qed.

(** Where the rule of the specification holds: when the loop over the stations
    has collected as many wind speeds as temperatures, and at least one, and
    the three conversions to [int] are defined, [handleData] succeeds and
    appends exactly two strings to the queue: the integer part of the median
    temperature followed by [" f"], then the integer part of 1.151 times the
    median wind speed followed by ["mph"]; the medians are those of the
    specification. *)
Lemma weather_summary_of_pairs (fuel : nat) (json : Json) (fetch_time : string)
    (st : HTTPTask) (temps wind_speeds : list float) (logged : list effect)
    (t k w : Z) :
  is_array (at_key json "STATION") = true ->
  station_loop fuel (array_items (at_key json "STATION")) 0 [] [] []
  = Returned (temps, wind_speeds, logged) ->
  temps <> [] ->
  List.length wind_speeds = List.length temps ->
  int_of_double (spec_median temps) = Returned t ->
  int_of_double (spec_median wind_speeds) = Returned k ->
  int_of_double (spec_median wind_speeds * KNOTS_TO_MPH)%float = Returned w ->
  exists st' fx,
    handleData fuel json fetch_time st = Returned (true, st', fx)
    /\ messages_ st'
       = messages_ st ++ [(dec t ++ " f")%string; (dec w ++ "mph")%string]
    /\ t = truncate (spec_median temps)
    /\ w = truncate (spec_median wind_speeds * KNOTS_TO_MPH)%float.
Proof.
  intros Harray Hloop Hne Hlen Ht Hk Hw. unfold handleData.
  rewrite Harray, Hloop. cbn [negb bind].
  assert (Hentries : (Z.of_nat (List.length temps) =? 0) = false).
  { apply Z.eqb_neq. destruct temps; [congruence | cbn; lia]. }
  rewrite Hentries, (medians_spec temps wind_speeds Hne Hlen). cbn [bind].
  rewrite Ht, Hk. cbn [bind]. rewrite Hw. cbn [bind].
  apply int_of_double_truncates in Ht, Hw.
  destruct Ht as [Ht Htr], Hw as [Hw Hwr].
  eexists. eexists. split; [reflexivity|]. split; [|auto].
  cbn [push set_messages messages_].
  rewrite !weather_text_fits by (assumption || (cbn; lia)).
  rewrite <- app_assoc. reflexivity.
Qed.

(** C10: a call of [handleData] that succeeds leaves every pending entry of
    the queue in place and in order, and appends exactly two strings behind
    them; [messages_.empty()] only reads the queue. *)
Theorem weather_refresh_keeps_queue (fuel : nat) (json : Json)
    (fetch_time : string) (st st' : HTTPTask) (fx : list effect) :
  handleData fuel json fetch_time st = Returned (true, st', fx) ->
  exists first second, messages_ st' = messages_ st ++ [first; second].
Proof.
  unfold handleData.
  destruct (negb (is_array (at_key json "STATION"))); [discriminate|].
  destruct (station_loop fuel _ 0 [] [] []) as [[[temps winds] logged]| |];
    cbn [bind]; try discriminate.
  destruct (Z.of_nat (List.length temps) =? 0); [discriminate|].
  destruct (medians _ _ _) as [[median_temp median_wind_speed]| |];
    cbn [bind]; try discriminate.
  repeat match goal with
         | |- context [bind (int_of_double ?d) _] =>
             destruct (int_of_double d); cbn [bind]; try discriminate
         end.
  intros H. inversion H; subst; clear H.
  cbn [push set_messages messages_]. rewrite <- app_assoc.
  eexists. eexists. reflexivity.
Qed.

(** C5, where the code departs from it: a station with a temperature and no
    wind speed adds its temperature to [temps] and nothing to
    [wind_speeds]. *)
Theorem temperature_collected_without_wind :
  station_step (station 70 None) [] []
  = ([70%float], [], [Log "Bad wind_speed_value_1, ignoring"]).
Proof. reflexivity. Qed.

(** C7, where the code departs from it: for the body with the single station
    above, [entries] is 1 and [wind_speeds] is empty, so [wind_speeds[0]] is
    read outside the vector. *)
Theorem median_reads_outside_wind_speeds :
  handleData 2 (stations [station 70 None]) "2021-11-30 23:25:00"
    (task_with [] 0 EmptyString)
  = Undefined "vector index out of range".
Proof. reflexivity. Qed.

(** C6, where the code departs from it: of the three stations, two report
    a temperature and a wind speed (69 and 0.87, 68 and 1.74) and the third
    a temperature only (70). The medians of the two collected pairs are 68.5
    and 1.305, for which the rule of the specification gives [68 f] and
    [1mph]. [handleData] returns [true] with [69 f] and [2mph]: the
    temperature of the third station was counted, and the wind speed is read
    at the index computed from the three temperatures. *)
Theorem weather_summary_counts_lone_temperature :
  (exists fx,
     handleData 4 (stations stations_one_without_wind) "2021-11-30 23:25:00"
       (task_with [] 0 EmptyString)
     = Returned (true, set_messages ["69 f"; "2mph"] (task_with [] 0 EmptyString),
                 fx))
  /\ filter has_both stations_one_without_wind
     = [station 69 (Some 0.87%float); station 68 (Some 1.74%float)]
  /\ spec_weather_summary stations_one_without_wind = ["68 f"; "1mph"].
Proof.
  split; [eexists; reflexivity|]. split; reflexivity.
Qed.

(** ** The properties at sample inputs *)

Local Abbreviation sample_run :=
  (run_loop sample_ssid sample_token rejecting_parse sample_toFloat sample_dtostrf).
Local Abbreviation sample_tick :=
  (tick sample_ssid sample_token rejecting_parse sample_toFloat sample_dtostrf).
Local Abbreviation sample_cycle_times :=
  (cycle_times sample_token rejecting_parse sample_toFloat sample_dtostrf).
Local Abbreviation sample_addStockPriceToMessages :=
  (addStockPriceToMessages sample_token rejecting_parse sample_toFloat
     sample_dtostrf).

(** C1 fails as stated: with nothing queued, the iteration at 14:23:59 shows
    the clock and the one a second later, in the next minute, shows it
    again. *)
Lemma clock_calls_one_second_apart :
  chronological 0 [at_time 6000 14 23; at_time 7000 14 24]
  /\ exists trace final,
      sample_run [at_time 6000 14 23; at_time 7000 14 24] (task_with [] 0 "t1422")
      = Returned (trace, final)
      /\ shown_strings trace = ["t1423"; "t1424"]
      /\ showString_times trace = [6000; 7000]
      /\ ~ consecutive_at_least MESSAGE_CYCLE_INTERVAL_MILLIS
             (showString_times trace).
Proof.
  split; [cbn; lia|].
  eexists. eexists. split; [cbv; reflexivity|].
  split; [reflexivity|]. split; [reflexivity|].
  cbn. unfold MESSAGE_CYCLE_INTERVAL_MILLIS. lia.
Qed.

(** Two queued messages, iterations every three seconds: the messages are
    shown six seconds apart. *)
Lemma queued_messages_cycle_rate_sample :
  exists trace final,
    sample_run [at_time 6000 14 23; at_time 9000 14 23; at_time 12000 14 23]
      (task_with ["amzn"; " big "] 0 "t1423")
    = Returned (trace, final)
    /\ sample_cycle_times trace = [6000; 12000]
    /\ consecutive_at_least MESSAGE_CYCLE_INTERVAL_MILLIS
         (sample_cycle_times trace).
Proof.
  eexists. eexists. split; [cbv; reflexivity|].
  split; [reflexivity|].
  eapply (queued_messages_cycle_rate sample_ssid sample_token rejecting_parse
            sample_toFloat sample_dtostrf 0
            [at_time 6000 14 23; at_time 9000 14 23; at_time 12000 14 23]
            (task_with ["amzn"; " big "] 0 "t1423")).
  - cbn. lia.
  - cbv. reflexivity.
Defined.

(** The iteration at 21:00 with a message pending. *)
Lemma night_hours_quiet_sample :
  sample_tick (at_time 6000 21 0) (task_with ["amzn"] 0 "t2059")
  = Returned
      (task_with ["amzn"] 0 "t2059",
       [OTA_handle; ShowString "night" NUM_MODULES false; DisableAll; Delay 60000]).
Proof.
  exact (proj1 (night_hours_quiet sample_ssid sample_token rejecting_parse
                  sample_toFloat sample_dtostrf (at_time 6000 21 0)
                  (task_with ["amzn"] 0 "t2059") eq_refl)).
Defined.

(** The rows of 12:00 and of 13:00 fire an hour apart. *)
Lemma scheduled_events_debounced_sample :
  exists trace final,
    sample_run [at_time 100000 12 0; at_time 3700000 13 0] (task_with [] 0 "t1159")
    = Returned (trace, final)
    /\ firings trace = [at_time 100000 12 0; at_time 3700000 13 0]
    /\ ForallOrdPairs (fun a b => 60000 < t_now b - t_now a) (firings trace)
    /\ forall boot_epoch, NoDup (map (civil_minute boot_epoch) (firings trace)).
Proof.
  eexists. eexists. split; [cbv; reflexivity|].
  split; [reflexivity|].
  eapply (scheduled_events_debounced sample_ssid sample_token rejecting_parse
            sample_toFloat sample_dtostrf 0
            [at_time 100000 12 0; at_time 3700000 13 0]
            (task_with [] 0 "t1159")).
  - cbn. lia.
  - cbv. reflexivity.
Defined.

(** C3, where the code departs from it: nothing queued, two iterations a
    second apart in the minute 14:23, and [t1423] already remembered as the
    text last shown; each of the two shows [t1423]. *)
Theorem idle_clock_shown_again_same_minute :
  shown_by
    (sample_run [at_time 6000 14 23; at_time 7000 14 23] (task_with [] 0 "t1423"))
  = Some ["t1423"; "t1423"].
Proof. reflexivity. Qed.

(** The tests written as a subtraction see only the time elapsed, wherever
    [millis()] wraps. *)
Lemma subtraction_ignores_wrap (a b shift : Z) :
  usub32 (millis (a + shift)) (millis (b + shift)) = usub32 (millis a) (millis b).
Proof.
  rewrite !usub32_millis. f_equal. lia.
Qed.

(** C9, where the code departs from it: the test that lets the clock be
    shown adds the interval to the stored timestamp and compares. Seven
    seconds after the last message change the clock is shown when nothing
    wrapped, and not shown when [millis()] wrapped in between; one second
    after it the clock is not shown when nothing wrapped, and shown when the
    sum wraps. *)
Theorem idle_clock_test_breaks_at_wrap :
  shown_by (sample_run [at_time 8000 14 23] (task_with [] 1000 "t1422"))
  = Some ["t1423"]
  /\ shown_by
       (sample_run [at_time (2 ^ 32 + 1000) 14 23]
          (task_with [] (millis (2 ^ 32 - 6000)) "t1422"))
     = Some []
  /\ shown_by (sample_run [at_time 7000 14 23] (task_with [] 6000 "t1422"))
     = Some []
  /\ shown_by
       (sample_run [at_time (2 ^ 32 - 2000) 14 23]
          (task_with [] (millis (2 ^ 32 - 3000)) "t1422"))
     = Some ["t1423"].
Proof. repeat split; reflexivity. Qed.

(** C8 fails as stated: the answer does not parse, and the symbol is in the
    queue all the same. *)
Lemma quote_failure_changes_queue :
  0 < http_code sample_response
  /\ quote_malformed rejecting_parse sample_response = true
  /\ exists st' fx,
      sample_addStockPriceToMessages "AMZN" sample_response
        (task_with ["wakey"] 0 "t0859")
      = Returned (false, st', fx)
      /\ messages_ st' = ["wakey"; "amzn"]
      /\ messages_ st' <> messages_ (task_with ["wakey"] 0 "t0859").
Proof.
  split; [reflexivity|]. split; [reflexivity|].
  eexists. eexists. split; [reflexivity|]. split; [reflexivity|]. discriminate.
Qed.

Lemma quote_failure_keeps_symbol_sample :
  exists line,
    sample_addStockPriceToMessages "AMZN" sample_response
      (task_with ["wakey"] 0 "t0859")
    = Returned
        (false,
         push "amzn" (task_with ["wakey"] 0 "t0859"),
         [HttpBegin
            "https://www.alphavantage.co/query?function=GLOBAL_QUOTE&symbol=AMZN&apikey=demo";
          HttpGET;
          Log line]).
Proof.
  exact (quote_failure_keeps_symbol sample_token rejecting_parse sample_toFloat
           sample_dtostrf "AMZN" sample_response (task_with ["wakey"] 0 "t0859")
           eq_refl eq_refl).
Defined.

(** Three stations, with temperatures 68, 71, 69 and wind speeds 0.87, 2.0,
    1.74 knots, and two prompts pending. *)
Lemma weather_summary_of_pairs_sample :
  exists st' fx,
    handleData 4
      (stations [station 68 (Some 0.87%float); station 71 (Some 2%float);
                 station 69 (Some 1.74%float)])
      "2021-11-30 23:25:00" (task_with ["wakey"; "eggsn"] 0 "t0859")
    = Returned (true, st', fx)
    /\ messages_ st' = ["wakey"; "eggsn"] ++ ["69 f"; "2mph"]
    /\ 69 = truncate (spec_median [68; 71; 69]%float)
    /\ 2 = truncate (spec_median [0.87; 2; 1.74]%float * KNOTS_TO_MPH)%float.
Proof.
  exact (weather_summary_of_pairs 4
           (stations [station 68 (Some 0.87%float); station 71 (Some 2%float);
                      station 69 (Some 1.74%float)])
           "2021-11-30 23:25:00" (task_with ["wakey"; "eggsn"] 0 "t0859")
           [68; 71; 69]%float [0.87; 2; 1.74]%float [] 69 1 2
           eq_refl eq_refl ltac:(discriminate) eq_refl eq_refl eq_refl eq_refl).
Defined.

Lemma weather_refresh_keeps_queue_sample :
  exists first second,
    messages_
      (set_messages ["wakey"; "eggsn"; "69 f"; "2mph"]
         (task_with ["wakey"; "eggsn"] 0 "t0859"))
    = messages_ (task_with ["wakey"; "eggsn"] 0 "t0859") ++ [first; second].
Proof.
  eapply (weather_refresh_keeps_queue 4
            (stations [station 68 (Some 0.87%float); station 71 (Some 2%float);
                       station 69 (Some 1.74%float)])
            "2021-11-30 23:25:00" (task_with ["wakey"; "eggsn"] 0 "t0859")).
  reflexivity.
Defined.

(** * Further properties, outside the section *)

(** ** What the display reads of a padded message *)

Lemma length_spaces (n : nat) : String.length (spaces n) = n.
Proof.
  unfold spaces. induction n as [|n IH]; cbn; [reflexivity | now rewrite IH].
Qed.

Lemma str_take_spaces (n k : nat) :
  (n <= k)%nat -> str_take n (spaces k) = spaces n.
Proof.
  unfold str_take, spaces. revert k. induction n as [|n IH]; intros k Hk.
  - destruct k; reflexivity.
  - destruct k as [|k]; [lia|]. cbn. f_equal. apply IH. lia.
Qed.

Lemma str_take_append (n : nat) (s t : string) :
  str_take n (s ++ t)%string
  = if (n <=? String.length s)%nat then str_take n s
    else (s ++ str_take (n - String.length s) t)%string.
Proof.
  unfold str_take. revert n. induction s as [|c s IH]; intros n.
  - cbn [String.length String.append]. destruct n; cbn; [|reflexivity].
    destruct t; reflexivity.
  - destruct n as [|n]; [reflexivity|].
    cbn [String.append String.substring String.length Nat.leb Nat.sub].
    rewrite IH. destruct (n <=? String.length s)%nat; reflexivity.
Qed.

(** X13: a message shorter than the buffer is padded without any write
    outside the buffer, the padded text fills the buffer, and the
    [NUM_MODULES] characters the display reads of it are the message
    followed by spaces up to that width, or its first [NUM_MODULES]
    characters if it is longer. *)
Theorem padded_window (message : string) :
  str_len message < sizeof_buf ->
  exists padded,
    pad_for_display message = Returned padded
    /\ str_len padded = sizeof_buf
    /\ str_take (Z.to_nat NUM_MODULES) padded
       = str_take (Z.to_nat NUM_MODULES)
           (message ++ spaces (Z.to_nat NUM_MODULES))%string.
Proof.
  unfold pad_for_display, str_len. change sizeof_buf with 200.
  change (Z.to_nat NUM_MODULES) with 5%nat. intros Hlen.
  assert (H : (Z.of_nat (String.length message) <? 200) = true)
    by (apply Z.ltb_lt; exact Hlen).
  rewrite H. eexists. split; [reflexivity|]. split.
  - rewrite length_append, length_spaces. lia.
  - rewrite !str_take_append.
    destruct (5 <=? String.length message)%nat eqn:Hfive; [reflexivity|].
    apply Nat.leb_gt in Hfive. f_equal.
    rewrite !str_take_spaces by lia. reflexivity.
Qed.

(** A message longer than the buffer makes [memset] write outside it. *)
Lemma pad_for_display_overflow (message : string) :
  sizeof_buf < str_len message ->
  pad_for_display message = Undefined "memset past the end of buf".
Proof.
  unfold pad_for_display. intros H.
  assert (H1 : (str_len message <? sizeof_buf) = false) by (apply Z.ltb_ge; lia).
  assert (H2 : (str_len message =? sizeof_buf) = false) by (apply Z.eqb_neq; lia).
  now rewrite H1, H2.
Qed.

Lemma before_nul_spaces (n : nat) : before_nul (spaces n) = None.
Proof.
  unfold spaces. induction n as [|n IH]; cbn; [reflexivity|].
  now rewrite IH.
Qed.

Lemma before_nul_append (s t : string) :
  before_nul s = None -> before_nul t = None -> before_nul (s ++ t)%string = None.
Proof.
  intros Hs Ht. induction s as [|c s IH]; cbn in *; [exact Ht|].
  destruct (Ascii.eqb c "000"%char); [discriminate|].
  destruct (before_nul s); [discriminate|]. now rewrite IH.
Qed.

(** The padding of a message shorter than [buf] overwrites the terminator
    that [strlcpy] wrote and puts none at the end. *)
Lemma padded_has_no_terminator (message : string) :
  str_len message < sizeof_buf ->
  before_nul message = None ->
  exists padded,
    pad_for_display message = Returned padded
    /\ c_string_in_buf padded = Undefined "read past the end of buf".
Proof.
  intros Hlen Hnul. unfold pad_for_display.
  assert (H : (str_len message <? sizeof_buf) = true) by now apply Z.ltb_lt.
  rewrite H. eexists. split; [reflexivity|].
  unfold c_string_in_buf.
  rewrite (before_nul_append _ _ Hnul (before_nul_spaces _)).
  assert (Hfull : str_len (message
                           ++ spaces (Z.to_nat (sizeof_buf - str_len message)))%string
                  = sizeof_buf).
  { unfold str_len in *. rewrite length_append, length_spaces. lia. }
  rewrite Hfull, Z.ltb_irrefl. reflexivity.
Qed.

(** X23: the display of the last queued message leaves [buf] filled to its
    last element, without a terminator; whenever the display step next
    takes the clock branch, which logs [buf] before it writes to it, the
    call reads past the end of the array. *)
Theorem clock_after_message_reads_past_buf (e1 : env) (now1 : Z)
    (st : HTTPTask) (message : string) :
  messages_ st = [message] ->
  before_nul message = None ->
  str_len message < sizeof_buf ->
  MESSAGE_CYCLE_INTERVAL_MILLIS < usub32 now1 (last_message_change_time_ st) ->
  exists st1 fx1,
    display_cycle e1 now1 st = Returned (st1, fx1)
    /\ messages_ st1 = []
    /\ forall (e2 : env) (now2 : Z),
         uadd32 (last_message_change_time_ st1) MESSAGE_CYCLE_INTERVAL_MILLIS
         < now2 ->
         display_cycle e2 now2 st1 = Undefined "read past the end of buf".
Proof.
  intros Hq Hnul Hlen Hgate.
  destruct (padded_has_no_terminator message Hlen Hnul) as (padded & Hpad & Hread).
  unfold display_cycle at 1. rewrite Hq. cbn [List.length].
  apply Z.ltb_lt in Hgate. rewrite Hgate, Hpad. cbn [bind negb andb Z.of_nat Z.eqb].
  do 2 eexists. split; [reflexivity|]. split; [reflexivity|].
  intros e2 now2 Hclock. unfold display_cycle.
  cbn [messages_ last_message_change_time_ buf List.length Z.of_nat Z.eqb negb andb]
    in *.
  apply Z.ltb_lt in Hclock. rewrite Hclock, Hread. reflexivity.
Qed.

Lemma dec2_two_digits (z : Z) : 0 <= z <= 99 -> String.length (dec2 z) = 2%nat.
Proof.
  intros Hz.
  assert (Hall : forallb (fun n => Nat.eqb (String.length (dec2 (Z.of_nat n))) 2)
                         (seq 0 100) = true) by (vm_compute; reflexivity).
  rewrite forallb_forall in Hall.
  specialize (Hall (Z.to_nat z)).
  rewrite Z2Nat.id in Hall by lia.
  apply Nat.eqb_eq. apply Hall. apply in_seq. lia.
Qed.

(** X14: for every local time of a day the clock text has exactly
    [NUM_MODULES] characters: with its terminator it fits the array
    [curTime] of [NUM_MODULES + 3] characters, and it fills the display. *)
Theorem clock_text_width (e : env) :
  0 <= tm_hour e <= 23 -> 0 <= tm_min e <= 59 ->
  str_len (strftime_tHHMM e) = NUM_MODULES
  /\ str_len (strftime_tHHMM e) + 1 <= NUM_MODULES + 3.
Proof.
  intros Hh Hm. unfold strftime_tHHMM, str_len.
  rewrite !length_append, !dec2_two_digits by lia.
  cbn. unfold NUM_MODULES. lia.
Qed.

(** ** The progress callback of the updater *)

(** X15: for an image of at least 100 bytes the callback prints a number
    between 0 and 199, at least 100 once all is received, and exactly the
    percentage when the size is a multiple of 100; the number can exceed 100
    otherwise, because the size is divided by 100 first. *)
Theorem progress_percent_range (progress total : Z) :
  100 <= total -> 0 <= progress <= total ->
  exists percent,
    progress_percent progress total = Returned percent
    /\ 0 <= percent <= 199
    /\ (progress = total -> 100 <= percent)
    /\ (total mod 100 = 0 -> percent = 100 * progress / total).
Proof.
  intros Htotal Hprogress. unfold progress_percent.
  assert (Hq : 1 <= total / 100) by (apply Z.div_le_lower_bound; lia).
  assert (Hzero : (total / 100 =? 0) = false) by (apply Z.eqb_neq; lia).
  rewrite Hzero. eexists. split; [reflexivity|].
  pose proof (Z.div_mod total 100 ltac:(lia)) as Hdm.
  pose proof (Z.mod_pos_bound total 100 ltac:(lia)) as Hmod.
  repeat split.
  - apply Z.div_pos; lia.
  - assert (progress / (total / 100) < 200); [|lia].
    apply Z.div_lt_upper_bound; lia.
  - intros ->. apply Z.div_le_lower_bound; lia.
  - intros Hmult. rewrite Hmult in Hdm.
    replace total with (100 * (total / 100)) at 2 by lia.
    rewrite Z.div_mul_cancel_l by lia. reflexivity.
Qed.

(** X16: for an image of fewer than 100 bytes the callback divides by
    zero. *)
Theorem progress_percent_small_image (progress total : Z) :
  0 <= total < 100 ->
  progress_percent progress total = Undefined "division by zero"
  /\ onProgress progress total = Undefined "division by zero".
Proof.
  intros Ht. unfold onProgress, progress_percent.
  assert (H : (total / 100 =? 0) = true)
    by (apply Z.eqb_eq; apply Z.div_small; lia).
  now rewrite H.
Qed.

(** ** Weather summary, all paths *)

Lemma collect_selects (items : list Json) :
  forall (temps wind_speeds : list float) (logged : list effect),
  exists logged',
    collect items temps wind_speeds logged
    = (temps ++ map temperature_of (filter (has_number "air_temp_value_1") items),
       wind_speeds ++ map wind_speed_of (filter has_both items),
       logged').
Proof.
  induction items as [|item rest IH]; intros temps winds logged; cbn [collect].
  - exists logged. cbn. now rewrite !app_nil_r.
  - pose proof (station_step_collects item temps winds) as Hstep.
    cbv zeta in Hstep.
    destruct (station_step item temps winds) as [[temps' winds'] fx].
    cbn [fst snd] in Hstep. destruct Hstep as [-> ->].
    edestruct IH as [logged' Hrest]. rewrite Hrest. clear Hrest.
    exists logged'. unfold has_both, temperature_of, wind_speed_of.
    cbn [filter].
    destruct (has_number "air_temp_value_1" item);
      destruct (has_number "wind_speed_value_1" item);
      cbn [andb map]; rewrite <- ?app_assoc; reflexivity.
Qed.

(** X17: with at most 255 stations and fuel for one test more than there
    are stations, the loop ends with, in [temps], the temperatures of the
    stations whose temperature is a number and, in [wind_speeds], the wind
    speeds of those whose temperature and wind speed both are, each in the
    order of the stations: never more wind speeds than temperatures. *)
Theorem station_loop_selects (fuel : nat) (station_array : list Json) :
  (List.length station_array <= 255)%nat ->
  (List.length station_array < fuel)%nat ->
  exists logged,
    station_loop fuel station_array 0 [] [] []
    = Returned
        (map temperature_of
           (filter (has_number "air_temp_value_1") station_array),
         map wind_speed_of (filter has_both station_array),
         logged)
    /\ (List.length (filter has_both station_array)
        <= List.length (filter (has_number "air_temp_value_1") station_array))%nat.
Proof.
  intros Hsize Hfuel.
  rewrite (station_loop_collect station_array fuel Hsize Hfuel).
  destruct (collect_selects station_array [] [] []) as [logged ->].
  exists logged. split; [reflexivity|].
  clear. induction station_array as [|item rest IH]; cbn [filter]; [lia|].
  unfold has_both at 1.
  destruct (has_number "air_temp_value_1" item);
    destruct (has_number "wind_speed_value_1" item); cbn [andb List.length]; lia.
Qed.

Lemma vector_at_outside (v : list float) (i : nat) :
  (List.length v <= i)%nat ->
  vector_at v (Z.of_nat i) = Undefined "vector index out of range".
Proof.
  intros Hi. unfold vector_at.
  assert (H : (Z.of_nat i <? Z.of_nat (List.length v)) = false)
    by (apply Z.ltb_ge; lia).
  rewrite H. now rewrite andb_false_r.
Qed.

(** The medians are read inside the vectors exactly when [wind_speeds] has
    more than half as many values as [temps]. *)
Lemma medians_defined (temps wind_speeds : list float) :
  temps <> [] ->
  ((List.length temps / 2 < List.length wind_speeds)%nat ->
   exists r, medians (Z.of_nat (List.length temps)) temps wind_speeds = Returned r)
  /\ ((List.length wind_speeds <= List.length temps / 2)%nat ->
      medians (Z.of_nat (List.length temps)) temps wind_speeds
      = Undefined "vector index out of range").
Proof.
  intros Hne. unfold medians. rewrite even_of_nat, half_of_nat.
  set (n := List.length temps).
  assert (Hn : (0 < n)%nat) by (destruct temps; [congruence | cbn; lia]).
  assert (Hhalf : (n / 2 < n)%nat) by (apply Nat.div_lt; lia).
  destruct (Nat.even n) eqn:E.
  - assert (H2 : (2 <= n)%nat).
    { apply Nat.even_spec in E. destruct E as [k Hk]. lia. }
    assert (Hpos : (1 <= n / 2)%nat)
      by (change 1%nat with (2 / 2)%nat; apply Nat.Div0.div_le_mono; exact H2).
    replace (Z.of_nat (n / 2) - 1) with (Z.of_nat (n / 2 - 1)) by lia.
    rewrite !(vector_at_inside temps) by (fold n; lia). cbn [bind].
    split; intros Hw.
    + rewrite !(vector_at_inside wind_speeds) by lia. cbn [bind]. eauto.
    + destruct (Nat.le_gt_cases (List.length wind_speeds) (n / 2 - 1)) as [Hlow|Hhigh].
      * now rewrite (vector_at_outside wind_speeds (n / 2 - 1)) by lia.
      * rewrite (vector_at_inside wind_speeds (n / 2 - 1)) by lia. cbn [bind].
        now rewrite (vector_at_outside wind_speeds (n / 2)) by lia.
  - rewrite (vector_at_inside temps) by (fold n; lia). cbn [bind].
    split; intros Hw.
    + rewrite (vector_at_inside wind_speeds) by lia. cbn [bind]. eauto.
    + now rewrite (vector_at_outside wind_speeds (n / 2)) by lia.
Qed.

(** Once the medians are read, what is left of [handleData] returns unless
    a conversion to [int] is undefined. *)
Lemma conversions_cases (A : Type) (d : float) (k : Z -> outcome A) :
  (forall z, (exists r, k z = Returned r)
             \/ k z = Undefined "double outside the range of int") ->
  (exists r, bind (int_of_double d) k = Returned r)
  \/ bind (int_of_double d) k = Undefined "double outside the range of int".
Proof.
  intros Hk. destruct (int_of_double_cases d) as [[z ->]| ->]; cbn [bind]; auto.
Qed.

(** The three ways [handleData] can end for a body with at most 255
    stations, by the numbers of stations with a numeric temperature and with
    both numbers. *)
Lemma handleData_cases (fuel : nat) (json : Json) (items : list Json)
    (fetch_time : string) (st : HTTPTask) :
  at_key json "STATION" = JArray items ->
  (List.length items <= 255)%nat ->
  (List.length items < fuel)%nat ->
  let with_temp := List.length (filter (has_number "air_temp_value_1") items) in
  let with_both := List.length (filter has_both items) in
  (handleData fuel json fetch_time st = Undefined "vector index out of range"
   <-> (0 < with_temp /\ with_both <= with_temp / 2)%nat)
  /\ ((exists r, handleData fuel json fetch_time st = Returned r)
      -> (with_temp = 0 \/ with_temp / 2 < with_both)%nat)
  /\ ((with_temp = 0 \/ with_temp / 2 < with_both)%nat
      -> (exists r, handleData fuel json fetch_time st = Returned r)
         \/ handleData fuel json fetch_time st
            = Undefined "double outside the range of int").
Proof.
  intros Hjson Hsize Hfuel with_temp with_both. unfold handleData.
  rewrite Hjson. cbn [is_array negb array_items].
  destruct (station_loop_selects fuel items Hsize Hfuel) as (logged & -> & _).
  cbn [bind]. rewrite length_map. fold with_temp.
  destruct with_temp as [|n] eqn:Hwt.
  - cbn [Z.of_nat Z.eqb]. split; [split|split].
    + intros H. discriminate H.
    + intros [H _]. lia.
    + auto.
    + eauto.
  - assert (Hz : (Z.of_nat (S n) =? 0) = false) by (apply Z.eqb_neq; lia).
    rewrite Hz.
    set (temps := map temperature_of (filter (has_number "air_temp_value_1") items)).
    set (winds := map wind_speed_of (filter has_both items)).
    assert (Hlt : List.length (std_sort temps) = S n)
      by (rewrite length_std_sort; unfold temps; rewrite length_map; exact Hwt).
    assert (Hlw : List.length (std_sort winds) = with_both)
      by (rewrite length_std_sort; unfold winds; now rewrite length_map).
    assert (Hne : std_sort temps <> [])
      by (intros E; rewrite E in Hlt; discriminate).
    destruct (medians_defined (std_sort temps) (std_sort winds) Hne) as [Hin Hout].
    rewrite Hlt, Hlw in Hin, Hout.
    destruct (Nat.le_gt_cases with_both (S n / 2)) as [Hfew|Hmany].
    + rewrite (Hout Hfew). cbn [bind]. split; [split|split].
      * intros _. split; [lia | exact Hfew].
      * reflexivity.
      * intros [r H]. discriminate.
      * intros [H|H]; [discriminate | lia].
    + destruct (Hin Hmany) as [[mt mw] ->]. cbn [bind].
      match goal with
      | |- context [bind (int_of_double mt) ?k] =>
          assert (Hrest : (exists r, bind (int_of_double mt) k = Returned r)
                          \/ bind (int_of_double mt) k
                             = Undefined "double outside the range of int")
      end.
      { repeat (apply conversions_cases; intros ?). eauto. }
      split; [split|split].
      * intros H. destruct Hrest as [[r Hr]|Hr]; rewrite Hr in H; discriminate H.
      * intros [_ H]. lia.
      * auto.
      * intros _. exact Hrest.
Qed.

(** X18: for a body with at most 255 stations, [handleData] reads outside
    [wind_speeds] exactly when some station has a numeric temperature and at
    most half as many stations (rounded down) have both a numeric
    temperature and a numeric wind speed. In every other case the medians
    are read inside the vectors, and the call returns unless one of the
    numbers it converts to [int] is outside the range of [int]. *)
Theorem handleData_undefined_iff (fuel : nat) (json : Json) (items : list Json)
    (fetch_time : string) (st : HTTPTask) :
  at_key json "STATION" = JArray items ->
  (List.length items <= 255)%nat ->
  (List.length items < fuel)%nat ->
  let with_temp := List.length (filter (has_number "air_temp_value_1") items) in
  let with_both := List.length (filter has_both items) in
  (handleData fuel json fetch_time st = Undefined "vector index out of range"
   <-> (0 < with_temp /\ with_both <= with_temp / 2)%nat)
  /\ ((exists r, handleData fuel json fetch_time st = Returned r)
      -> (with_temp = 0 \/ with_temp / 2 < with_both)%nat)
  /\ ((with_temp = 0 \/ with_temp / 2 < with_both)%nat
      -> (exists r, handleData fuel json fetch_time st = Returned r)
         \/ handleData fuel json fetch_time st
            = Undefined "double outside the range of int").
Proof.
  intros Hjson Hsize Hfuel.
  exact (handleData_cases fuel json items fetch_time st Hjson Hsize Hfuel).
Qed.

(** X19: for a body whose [STATION] is an array, [handleData] comes to its
    end for some amount of fuel if and only if the array has at most 255
    entries: the counter of its loop has eight bits. *)
Theorem handleData_ends_iff (json : Json) (items : list Json)
    (fetch_time : string) (st : HTTPTask) :
  at_key json "STATION" = JArray items ->
  ((exists fuel, handleData fuel json fetch_time st <> OutOfFuel)
   <-> (List.length items <= 255)%nat).
Proof.
  intros Hjson. split.
  - intros [fuel Hfuel].
    destruct (Nat.le_gt_cases (List.length items) 255) as [Hle|Hgt]; [exact Hle|].
    exfalso. apply Hfuel. unfold handleData.
    rewrite Hjson. cbn [is_array negb array_items].
    rewrite (station_loop_never_ends items ltac:(lia) fuel 0) by lia.
    reflexivity.
  - intros Hsize. exists (S (List.length items)).
    pose proof (handleData_cases (S (List.length items)) json items
                  fetch_time st Hjson Hsize ltac:(lia)) as H.
    cbv zeta in H. destruct H as (Hout & _ & Hin).
    set (with_temp := List.length (filter (has_number "air_temp_value_1") items))
      in *.
    set (with_both := List.length (filter has_both items)) in *.
    destruct (Nat.eq_dec with_temp 0) as [Hzero|Hpos].
    + destruct (Hin (or_introl Hzero)) as [[r ->]| ->]; discriminate.
    + destruct (Nat.le_gt_cases with_both (with_temp / 2)) as [Hfew|Hmany].
      * assert (Hsome : (0 < with_temp)%nat) by lia.
        rewrite (proj2 Hout (conj Hsome Hfew)). discriminate.
      * destruct (Hin (or_intror Hmany)) as [[r ->]| ->]; discriminate.
Qed.

Lemma station_step_reports (item : Json) (temps wind_speeds : list float) :
  forallb is_report (snd (station_step item temps wind_speeds)) = true.
Proof.
  unfold station_step.
  repeat match goal with
         | |- context [if ?c then _ else _] => destruct c
         end; reflexivity.
Qed.

Lemma station_loop_reports (fuel : nat) (station_array : list Json) :
  forall (i : Z) (temps wind_speeds temps' wind_speeds' : list float)
         (logged logged' : list effect),
    station_loop fuel station_array i temps wind_speeds logged
    = Returned (temps', wind_speeds', logged') ->
    forallb is_report logged = true ->
    forallb is_report logged' = true.
Proof.
  induction fuel as [|fuel IH]; intros i temps winds temps' winds' logged logged';
    cbn [station_loop]; [discriminate|].
  destruct (i <? Z.of_nat (List.length station_array)).
  - pose proof (station_step_reports (nth (Z.to_nat i) station_array JNull)
                  temps winds) as Hstep.
    destruct (station_step _ temps winds) as [[t w] fx]. cbn [snd] in Hstep.
    intros Hrun Hlogged. eapply IH; [exact Hrun|].
    now rewrite forallb_app, Hlogged, Hstep.
  - intros H Hlogged. inversion H; subst. exact Hlogged.
Qed.

Lemma handleData_shape (fuel : nat) (json : Json) (fetch_time : string)
    (st st' : HTTPTask) (ok : bool) (fx : list effect) :
  handleData fuel json fetch_time st = Returned (ok, st', fx) ->
  forallb is_report fx = true
  /\ (ok = false -> st' = st)
  /\ (ok = true ->
      exists first second, st' = set_messages (messages_ st ++ [first; second]) st).
Proof.
  unfold handleData.
  destruct (negb (is_array (at_key json "STATION"))).
  { intros [= <- <- <-]. repeat split; auto. discriminate. }
  destruct (station_loop fuel _ 0 [] [] []) as [[[temps winds] logged]| |] eqn:Hloop;
    cbn [bind]; try discriminate.
  apply station_loop_reports in Hloop; [|reflexivity].
  destruct (Z.of_nat (List.length temps) =? 0).
  { intros [= <- <- <-]. rewrite forallb_app, Hloop. repeat split; auto.
    discriminate. }
  destruct (medians _ _ _) as [[median_temp median_wind_speed]| |]; cbn [bind];
    try discriminate.
  repeat match goal with
         | |- context [bind (int_of_double ?d) _] =>
             destruct (int_of_double d); cbn [bind]; try discriminate
         end.
  intros [= <- <- <-]. rewrite forallb_app, Hloop. repeat split; auto.
  - discriminate.
  - intros _. do 2 eexists. unfold push, set_messages.
    cbn [messages_ last_message_change_time_ m_lastSeenTime
         intraMinuteDuplicationProtection buf].
    rewrite <- app_assoc. reflexivity.
Qed.

(** X20: a call of [handleData] that returns has only written lines to the
    logger and to the status display (it neither moves the flaps nor waits
    nor sends a request); it has changed nothing of the task but the queue,
    and nothing at all when it returns [false]. *)
Theorem handleData_frame (fuel : nat) (json : Json) (fetch_time : string)
    (st st' : HTTPTask) (ok : bool) (fx : list effect) :
  handleData fuel json fetch_time st = Returned (ok, st', fx) ->
  forallb is_report fx = true
  /\ st' = set_messages (messages_ st') st
  /\ (ok = false -> st' = st).
Proof.
  intros H. destruct (handleData_shape _ _ _ _ _ _ _ H) as (Hfx & Hfalse & Htrue).
  repeat split; auto.
  destruct ok.
  - destruct (Htrue eq_refl) as (first & second & ->). reflexivity.
  - rewrite (Hfalse eq_refl). destruct st; reflexivity.
Qed.

(** X21: [fetchData] returns [true] only if the request was answered with a
    positive code, the body parsed without error and [handleData] appended
    its two strings; whenever it returns [false] the task is as it was. *)
Theorem fetchData_outcome (Json_parse : string -> Json * string) (fuel : nat)
    (r : http_response) (fetch_time : string) (st st' : HTTPTask) (ok : bool)
    (fx : list effect) :
  fetchData Json_parse fuel r fetch_time st = Returned (ok, st', fx) ->
  (ok = false -> st' = st)
  /\ (ok = true ->
      0 < http_code r
      /\ snd (Json_parse (payload r)) = EmptyString
      /\ exists first second,
           st' = set_messages (messages_ st ++ [first; second]) st).
Proof.
  unfold fetchData.
  destruct (0 <? http_code r) eqn:Hcode.
  - destruct (Json_parse (payload r)) as [json err].
    destruct (is_empty_string err) eqn:Herr.
    + destruct (handleData fuel json fetch_time st) as [[[ok' s'] fx']| |] eqn:Hh;
        cbn [bind]; try discriminate.
      intros [= <- <- <-].
      destruct (handleData_shape _ _ _ _ _ _ _ Hh) as (_ & Hfalse & Htrue).
      split; [exact Hfalse|]. intros Hok.
      split; [now apply Z.ltb_lt|]. split; [|now apply Htrue].
      destruct err; [reflexivity | discriminate].
    + intros [= <- <- <-]. split; [reflexivity | discriminate].
  - intros [= <- <- <-]. split; [reflexivity | discriminate].
Qed.

(** X22: on every path on which [fetchData] returns, the request has been
    begun, sent and ended exactly once each, in this order. *)
Theorem fetchData_request_once (Json_parse : string -> Json * string)
    (fuel : nat) (r : http_response) (fetch_time : string) (st st' : HTTPTask)
    (ok : bool) (fx : list effect) :
  fetchData Json_parse fuel r fetch_time st = Returned (ok, st', fx) ->
  filter (fun f => negb (is_report f)) fx
  = [HttpBegin SYNOPTICDATA_URL; HttpGET; HttpEnd].
Proof.
  unfold fetchData.
  destruct (0 <? http_code r).
  - destruct (Json_parse (payload r)) as [json err].
    destruct (is_empty_string err).
    + destruct (handleData fuel json fetch_time st) as [[[ok' s'] fx']| |] eqn:Hh;
        cbn [bind]; try discriminate.
      intros [= <- <- <-].
      destruct (handleData_shape _ _ _ _ _ _ _ Hh) as (Hfx & _).
      assert (Hnone : filter (fun f => negb (is_report f)) fx' = []).
      { clear - Hfx. induction fx' as [|f l IH]; [reflexivity|].
        cbn in *. apply andb_prop in Hfx. destruct Hfx as [Hf Hl].
        rewrite Hf. cbn. now apply IH. }
      cbn [filter app is_report negb]. rewrite Hnone. reflexivity.
    + intros [= <- <- <-]. reflexivity.
  - intros [= <- <- <-]. reflexivity.
Qed.

(** ** The further properties at sample inputs *)

Local Abbreviation quoting_addStockPriceToMessages :=
  (addStockPriceToMessages sample_token quoting_parse quoting_toFloat
     quoting_dtostrf).
Local Abbreviation quoting_scheduled_events :=
  (scheduled_events sample_token quoting_parse quoting_toFloat quoting_dtostrf).
Local Abbreviation sample_connectWifi :=
  (connectWifi sample_ssid sample_token rejecting_parse sample_toFloat
     sample_dtostrf).
Local Abbreviation sample_whole_run :=
  (run sample_ssid sample_token rejecting_parse sample_toFloat sample_dtostrf).
Local Abbreviation sample_pushed_in :=
  (pushed_in sample_token rejecting_parse sample_toFloat sample_dtostrf).
Local Abbreviation sample_cycled_in :=
  (cycled_in sample_token rejecting_parse sample_toFloat sample_dtostrf).

(** A quote that is answered as expected: the symbol, then the price. *)
Lemma quote_enqueues_symbol_then_price_sample :
  exists ok st' fx,
    quoting_addStockPriceToMessages "AMZN" sample_response
      (task_with ["wakey"] 0 "t0859")
    = Returned (ok, st', fx)
    /\ messages_ st' = ["wakey"; "amzn"; "185.9"]
    /\ exists tail,
         st' = set_messages
                 (messages_ (task_with ["wakey"] 0 "t0859")
                  ++ toLowerCase "AMZN" :: tail)
                 (task_with ["wakey"] 0 "t0859")
         /\ (List.length tail <= 1)%nat
         /\ Forall (is_price quoting_dtostrf) tail
         /\ (ok = false -> tail = []).
Proof.
  do 3 eexists. split; [reflexivity|]. split; [reflexivity|].
  eapply (quote_enqueues_symbol_then_price sample_token quoting_parse
            quoting_toFloat quoting_dtostrf "AMZN" sample_response
            (task_with ["wakey"] 0 "t0859")).
  reflexivity.
Defined.

(** A body that does not parse: the request is not ended. *)
Lemma quote_ends_request_iff_true_sample :
  exists ok st' fx,
    sample_addStockPriceToMessages "VOO" sample_response
      (task_with [] 0 "t0859")
    = Returned (ok, st', fx)
    /\ ok = false
    /\ existsb is_HttpEnd fx = ok.
Proof.
  do 3 eexists. split; [reflexivity|]. split; [reflexivity|].
  eapply (quote_ends_request_iff_true sample_token rejecting_parse
            sample_toFloat sample_dtostrf "VOO" sample_response
            (task_with [] 0 "t0859")).
  reflexivity.
Defined.

(** An iteration at noon that fires and displays. *)
Lemma tick_shape_sample :
  exists st' fx,
    sample_tick (at_time 100000 12 0) (task_with [] 0 "t1159")
    = Returned (st', fx)
    /\ exists body wait,
         fx = OTA_handle :: body ++ [Delay wait]
         /\ (wait = 1000 \/ wait = 10000 \/ wait = 60000)
         /\ forallb (fun f => negb (is_Delay f || is_OTA_handle f)) body = true
         /\ (List.length (filter shows body) <= 1)%nat.
Proof.
  do 2 eexists. split; [cbv; reflexivity|].
  eapply (tick_shape sample_ssid sample_token rejecting_parse sample_toFloat
            sample_dtostrf (at_time 100000 12 0) (task_with [] 0 "t1159")).
  cbv. reflexivity.
Defined.

(** One string queued, the row of noon fires, two displays. *)
Lemma run_fifo_sample :
  exists trace final,
    sample_run [at_time 100000 12 0; at_time 106000 12 0]
      (task_with ["amzn"] 0 "t1159")
    = Returned (trace, final)
    /\ flat_map sample_pushed_in trace = ["it's"; "lunch"; "time"]
    /\ flat_map sample_cycled_in trace = ["amzn"; "it's"]
    /\ messages_ final = ["lunch"; "time"]
    /\ messages_ (task_with ["amzn"] 0 "t1159") ++ flat_map sample_pushed_in trace
       = flat_map sample_cycled_in trace ++ messages_ final.
Proof.
  do 2 eexists. split; [cbv; reflexivity|].
  split; [reflexivity|]. split; [reflexivity|]. split; [reflexivity|].
  eapply (run_fifo sample_ssid sample_token rejecting_parse sample_toFloat
            sample_dtostrf [at_time 100000 12 0; at_time 106000 12 0]
            (task_with ["amzn"] 0 "t1159")).
  cbv. reflexivity.
Defined.

(** One string queued, the row of noon fires, two displays. *)
Lemma only_prices_wider_than_display_sample :
  exists trace final,
    sample_run [at_time 100000 12 0; at_time 106000 12 0]
      (task_with ["amzn"] 0 "t1159")
    = Returned (trace, final)
    /\ messages_ final = ["lunch"; "time"]
    /\ Forall (fun s => fits_display s \/ is_price sample_dtostrf s)
              (messages_ final)
    /\ Forall
         (fun it : iteration =>
            forall message, In message (sample_cycled_in it) ->
              (fits_display message \/ is_price sample_dtostrf message)
              /\ (fits_display message ->
                  In (ShowString
                        (message
                         ++ spaces (Z.to_nat (sizeof_buf - str_len message)))%string
                        NUM_MODULES false)
                     (snd it)))
         trace.
Proof.
  do 2 eexists. split; [cbv; reflexivity|]. split; [reflexivity|].
  eapply (only_prices_wider_than_display sample_ssid sample_token rejecting_parse
            sample_toFloat sample_dtostrf
            [at_time 100000 12 0; at_time 106000 12 0]
            (task_with ["amzn"] 0 "t1159")).
  - cbv. reflexivity.
  - constructor; [left; vm_compute; discriminate | constructor].
Defined.

(** The row of 11:35 with both quotes answered as expected. *)
Lemma quote_row_pushes_sample :
  exists st1 fx,
    quoting_scheduled_events (at_time 100000 11 35) 100000
      (task_with ["wakey"] 0 "t1134")
    = Returned (st1, fx)
    /\ messages_ st1
       = ["wakey"; "symbl"; "price"; "amzn"; "185.9"; "voo"; "185.9"]
    /\ exists price1 price2,
         messages_ st1
         = messages_ (task_with ["wakey"] 0 "t1134")
           ++ ["symbl"; "price"; "amzn"] ++ price1 ++ ["voo"] ++ price2
         /\ (List.length price1 <= 1)%nat /\ (List.length price2 <= 1)%nat
         /\ intraMinuteDuplicationProtection st1 = 100000.
Proof.
  do 2 eexists. split; [reflexivity|]. split; [reflexivity|].
  eapply (quote_row_pushes sample_token quoting_parse quoting_toFloat
            quoting_dtostrf (at_time 100000 11 35) 100000
            (task_with ["wakey"] 0 "t1134")).
  - reflexivity.
  - reflexivity.
  - vm_compute. reflexivity.
  - reflexivity.
  - reflexivity.
Defined.

(** A message queued two seconds after the last change: nothing is shown,
    the clock neither. *)
Lemma queue_goes_before_clock_sample :
  exists st' fx,
    display_cycle (at_time 3000 14 23) 3000 (task_with ["amzn"] 1000 "t1422")
    = Returned (st', fx)
    /\ ((st' = task_with ["amzn"] 1000 "t1422" /\ fx = [])
        \/ (exists message,
              messages_ (task_with ["amzn"] 1000 "t1422")
              = message :: messages_ st'
              /\ last_message_change_time_ st' = millis (t_after (at_time 3000 14 23)))).
Proof.
  do 2 eexists. split; [reflexivity|].
  eapply (queue_goes_before_clock (at_time 3000 14 23) 3000
            (task_with ["amzn"] 1000 "t1422")).
  - discriminate.
  - cbn. lia.
  - reflexivity.
  - reflexivity.
  - reflexivity.
Defined.

Lemma connectWifi_waits_sample :
  exists st' calls,
    sample_connectWifi sample_boot (task_with [] 0 EmptyString)
    = Returned (st', calls)
    /\ setup_delays calls = [1000; 1000; 1000]
    /\ exists k j status now,
         Forall (fun s => is_connected s = false)
                (firstn k (status_polls sample_boot))
         /\ nth_error (status_polls sample_boot) k = Some status
         /\ is_connected status = true
         /\ Forall (fun t => t < TIME_FLOOR) (firstn j (time_polls sample_boot))
         /\ nth_error (time_polls sample_boot) j = Some now
         /\ TIME_FLOOR <= now
         /\ setup_delays calls = repeat 1000 (k + j).
Proof.
  do 2 eexists. split; [cbv; reflexivity|]. split; [reflexivity|].
  eapply (connectWifi_waits sample_ssid sample_token rejecting_parse
            sample_toFloat sample_dtostrf sample_boot
            (task_with [] 0 EmptyString)).
  cbv. reflexivity.
Defined.

Lemma connectWifi_result_sample :
  exists st' calls,
    sample_connectWifi sample_boot (task_with [] 0 EmptyString)
    = Returned (st', calls)
    /\ setup_shown calls = ["hi..."]
    /\ last_message_change_time_ st' = millis (t_connected sample_boot)
    /\ exists price,
         messages_ st' = messages_ (task_with [] 0 EmptyString) ++ "amzn" :: price
         /\ (List.length price <= 1)%nat.
Proof.
  do 2 eexists. split; [cbv; reflexivity|].
  eapply (connectWifi_result sample_ssid sample_token rejecting_parse
            sample_toFloat sample_dtostrf sample_boot
            (task_with [] 0 EmptyString)).
  cbv. reflexivity.
Defined.

(** WiFi that never connects. *)
Lemma connectWifi_blocks_sample :
  sample_connectWifi
    {| WIFI_PASSWORD := "secret";
       status_polls := [WL_DISCONNECTED; WL_NO_SSID_AVAIL; WL_CONNECT_FAILED];
       time_polls := [1700000000];
       strftime_local := fun _ => "2023-11-14 14:13:20";
       boot_ip := "192.168.0.2";
       boot_quote := sample_response;
       t_connected := 4000 |}
    (task_with [] 0 EmptyString)
  = OutOfFuel.
Proof.
  apply (connectWifi_blocks sample_ssid sample_token rejecting_parse
           sample_toFloat sample_dtostrf).
  left. repeat constructor.
Defined.

(** Boot at four seconds, iterations at 5, 8 and 11 seconds: [amzn] waits
    until the third. *)
Lemma greeting_stays_sample :
  exists setup trace final,
    sample_whole_run sample_boot EmptyString
      [at_time 5000 14 23; at_time 8000 14 23; at_time 11000 14 23]
      (task_with [] 0 EmptyString)
    = Returned (setup, trace, final)
    /\ showString_times trace = [11000]
    /\ Forall (fun it : iteration =>
                 existsb shows (snd it) = true ->
                 night_edge (fst (fst it)) = true
                 \/ MESSAGE_CYCLE_INTERVAL_MILLIS
                    < t_show (fst (fst it)) - t_connected sample_boot)
              trace.
Proof.
  do 3 eexists. split; [cbv; reflexivity|]. split; [reflexivity|].
  eapply (greeting_stays sample_ssid sample_token rejecting_parse sample_toFloat
            sample_dtostrf sample_boot EmptyString
            [at_time 5000 14 23; at_time 8000 14 23; at_time 11000 14 23]
            (task_with [] 0 EmptyString)).
  - cbn. lia.
  - reflexivity.
  - cbn. lia.
  - cbv. reflexivity.
Defined.

(** Boot shortly before noon: the row of 12:00 does not fire 30 seconds
    after boot and fires 61 seconds after boot. *)
Lemma no_event_in_first_minute_sample :
  exists setup trace final,
    sample_whole_run sample_boot EmptyString
      [at_time 30000 12 0; at_time 61000 12 0]
      (task_with [] 0 EmptyString)
    = Returned (setup, trace, final)
    /\ firings trace = [at_time 61000 12 0]
    /\ Forall (fun e => 60000 < t_now e) (firings trace).
Proof.
  do 3 eexists. split; [cbv; reflexivity|]. split; [reflexivity|].
  eapply (no_event_in_first_minute sample_ssid sample_token rejecting_parse
            sample_toFloat sample_dtostrf sample_boot EmptyString
            [at_time 30000 12 0; at_time 61000 12 0]
            (task_with [] 0 EmptyString)).
  - cbn. lia.
  - cbn. lia.
  - cbv. reflexivity.
Defined.

Lemma padded_window_sample :
  exists padded,
    pad_for_display "to" = Returned padded
    /\ str_len padded = sizeof_buf
    /\ str_take (Z.to_nat NUM_MODULES) padded = "to   ".
Proof.
  apply (padded_window "to"). reflexivity.
Defined.

Lemma clock_text_width_sample :
  str_len (strftime_tHHMM (at_time 6000 9 5)) = NUM_MODULES
  /\ str_len (strftime_tHHMM (at_time 6000 9 5)) + 1 <= NUM_MODULES + 3.
Proof.
  apply (clock_text_width (at_time 6000 9 5)); cbn; lia.
Defined.

(** An image of 199 bytes, all received: 199 is printed. *)
Lemma progress_percent_range_sample :
  exists percent,
    progress_percent 199 199 = Returned percent
    /\ 0 <= percent <= 199
    /\ (199 = 199 -> 100 <= percent)
    /\ (199 mod 100 = 0 -> percent = 100 * 199 / 199).
Proof.
  apply (progress_percent_range 199 199); lia.
Defined.

Lemma progress_percent_small_image_sample :
  progress_percent 40 99 = Undefined "division by zero"
  /\ onProgress 40 99 = Undefined "division by zero".
Proof.
  apply (progress_percent_small_image 40 99). lia.
Defined.

(** Three stations, the second without wind speed. *)
Lemma station_loop_selects_sample :
  exists logged,
    station_loop 4
      [station 68 (Some 0.87%float); station 71 None; station 69 (Some 1.74%float)]
      0 [] [] []
    = Returned ([68; 71; 69]%float, [0.87; 1.74]%float, logged)
    /\ (2 <= 3)%nat.
Proof.
  apply (station_loop_selects 4
           [station 68 (Some 0.87%float); station 71 None;
            station 69 (Some 1.74%float)]); cbn; lia.
Defined.

(** Two stations with a temperature, one of them with a wind speed: one is
    at most half of two, and the second index is outside [wind_speeds]. *)
Lemma handleData_undefined_iff_sample :
  (handleData 3 (stations [station 68 (Some 0.87%float); station 71 None])
     "2021-11-30 23:25:00" (task_with [] 0 EmptyString)
   = Undefined "vector index out of range"
   <-> (0 < 2 /\ 1 <= 2 / 2)%nat)
  /\ ((exists r,
        handleData 3 (stations [station 68 (Some 0.87%float); station 71 None])
          "2021-11-30 23:25:00" (task_with [] 0 EmptyString)
        = Returned r)
      -> (2 = 0 \/ 2 / 2 < 1)%nat)
  /\ ((2 = 0 \/ 2 / 2 < 1)%nat
      -> (exists r,
            handleData 3 (stations [station 68 (Some 0.87%float); station 71 None])
              "2021-11-30 23:25:00" (task_with [] 0 EmptyString)
            = Returned r)
         \/ handleData 3 (stations [station 68 (Some 0.87%float); station 71 None])
              "2021-11-30 23:25:00" (task_with [] 0 EmptyString)
            = Undefined "double outside the range of int").
Proof.
  apply (handleData_undefined_iff 3
           (stations [station 68 (Some 0.87%float); station 71 None])
           [station 68 (Some 0.87%float); station 71 None]
           "2021-11-30 23:25:00" (task_with [] 0 EmptyString));
    [reflexivity | cbn; lia | cbn; lia].
Defined.

Lemma handleData_ends_iff_sample :
  (exists fuel,
     handleData fuel (stations (repeat JNull 256)) "2021-11-30 23:25:00"
       (task_with [] 0 EmptyString)
     <> OutOfFuel)
  <-> (List.length (repeat JNull 256) <= 255)%nat.
Proof.
  apply (handleData_ends_iff (stations (repeat JNull 256)) (repeat JNull 256)).
  reflexivity.
Defined.

(** A body without stations: [false], and the task as it was. *)
Lemma handleData_frame_sample :
  exists ok st' fx,
    handleData 1 (stations []) "2021-11-30 23:25:00"
      (task_with ["wakey"] 0 "t0859")
    = Returned (ok, st', fx)
    /\ ok = false
    /\ forallb is_report fx = true
    /\ st' = set_messages (messages_ st') (task_with ["wakey"] 0 "t0859")
    /\ (ok = false -> st' = task_with ["wakey"] 0 "t0859").
Proof.
  do 3 eexists. split; [reflexivity|]. split; [reflexivity|].
  eapply (handleData_frame 1 (stations []) "2021-11-30 23:25:00"
            (task_with ["wakey"] 0 "t0859")).
  reflexivity.
Defined.

(** A request that fails in transport. *)
Lemma fetchData_outcome_sample :
  exists ok st' fx,
    fetchData rejecting_parse 1
      {| http_code := -1; payload := EmptyString;
         error_text := "connection refused"; request_millis := 12 |}
      "2021-11-30 23:25:00" (task_with ["wakey"] 0 "t0859")
    = Returned (ok, st', fx)
    /\ ok = false
    /\ (ok = false -> st' = task_with ["wakey"] 0 "t0859")
    /\ (ok = true ->
        0 < -1
        /\ snd (rejecting_parse EmptyString) = EmptyString
        /\ exists first second,
             st' = set_messages
                     (messages_ (task_with ["wakey"] 0 "t0859") ++ [first; second])
                     (task_with ["wakey"] 0 "t0859")).
Proof.
  do 3 eexists. split; [reflexivity|]. split; [reflexivity|].
  eapply (fetchData_outcome rejecting_parse 1
            {| http_code := -1; payload := EmptyString;
               error_text := "connection refused"; request_millis := 12 |}
            "2021-11-30 23:25:00" (task_with ["wakey"] 0 "t0859")).
  reflexivity.
Defined.

(** A body that does not parse. *)
Lemma fetchData_request_once_sample :
  exists ok st' fx,
    fetchData rejecting_parse 1 sample_response "2021-11-30 23:25:00"
      (task_with [] 0 EmptyString)
    = Returned (ok, st', fx)
    /\ filter (fun f => negb (is_report f)) fx
       = [HttpBegin SYNOPTICDATA_URL; HttpGET; HttpEnd].
Proof.
  do 3 eexists. split; [reflexivity|].
  eapply (fetchData_request_once rejecting_parse 1 sample_response
            "2021-11-30 23:25:00" (task_with [] 0 EmptyString)).
  reflexivity.
Defined.

(** [amzn] is displayed at six seconds; the display step taken any time
    after eleven seconds, for the clock, reads past the end of [buf]. *)
Lemma clock_after_message_reads_past_buf_sample :
  exists st1 fx1,
    display_cycle (at_time 6000 14 23) 6000 (task_with ["amzn"] 0 "t1422")
    = Returned (st1, fx1)
    /\ messages_ st1 = []
    /\ forall (e2 : env) (now2 : Z),
         uadd32 (last_message_change_time_ st1) MESSAGE_CYCLE_INTERVAL_MILLIS
         < now2 ->
         display_cycle e2 now2 st1 = Undefined "read past the end of buf".
Proof.
  apply (clock_after_message_reads_past_buf (at_time 6000 14 23) 6000
           (task_with ["amzn"] 0 "t1422") "amzn");
    [reflexivity | reflexivity | reflexivity | reflexivity].
Defined.
